(** * microvis: the homogeneous transform engine and the Node front end

    A shallow embedding of [microvis/core/_transform.py] and
    [microvis/core/nodes/node.py].

    - numpy's float64 is Rocq's primitive binary64 [float]; an [ndarray]
      is a shape together with its entries in row-major order.
    - A Python exception is a value of [exn], named by its class; a call
      that may raise returns a [result].
    - [Transform] instances live in a heap of objects, addressed by
      location, so that "returns a new instance" and "leaves the receiver
      unchanged" are statements about the heap.
    - The C library's [cos] and [sin], on which [math.cos] and
      [math.sin] raise their domain error at an infinite argument, and
      [numpy.linalg.inv] are parameters of the functions that call
      them. *)

From Stdlib Require Import String.
From Stdlib Require Import ZArith Lia List Bool.
From Stdlib Require Import Floats.
Import ListNotations.
Open Scope string_scope.
Open Scope list_scope.

(** ** Exceptions and results *)

Inductive exn : Type :=
| ValueError
| TypeError
| IndexError
| LinAlgError
| ValidationError (field_name : string)
| ImmutabilityError
| DanglingReference.

Inductive result (A : Type) : Type :=
| Ok (a : A)
| Raise (e : exn).

Arguments Ok {A} a.
Arguments Raise {A} e.

(** ** binary64 *)

Module Binary64.

Open Scope float_scope.

(** The class of a float, read off its IEEE 754 specification. *)
Inductive kind : Type := k_zero | k_finite | k_infinity | k_nan.

Definition kind_of (x : float) : kind :=
  match Prim2SF x with
  | S754_zero _ => k_zero
  | S754_finite _ _ _ => k_finite
  | S754_infinity _ => k_infinity
  | S754_nan => k_nan
  end.

(** Two floats are the same number when they are the same float or are
    both zeros, of whichever sign. *)
Definition same_number (x y : float) : Prop :=
  x = y \/ (is_zero x = true /\ is_zero y = true).

End Binary64.

(** ** numpy *)

Module Np.

Open Scope float_scope.

Record ndarray : Type := mk_array { shape : list nat; data : list float }.

Definition ndim (a : ndarray) : nat := length (shape a).

Definition size_of (s : list nat) : nat := fold_right Nat.mul 1%nat s.

(** An array holds as many entries as its shape says. *)
Definition wf (a : ndarray) : Prop := length (data a) = size_of (shape a).

Definition shape_eqb (s t : list nat) : bool :=
  if list_eq_dec Nat.eq_dec s t then true else false.

Definition item (d : list float) (i : nat) : float := nth i d 0.

(** [chunks n sz d]: the [n] consecutive blocks of [sz] entries of [d]. *)
Fixpoint chunks (n sz : nat) (d : list float) : list (list float) :=
  match n with
  | O => []
  | S n' => firstn sz d :: chunks n' sz (skipn sz d)
  end.

Definition scalar (x : float) : ndarray := mk_array [] [x].
Definition vector (v : list float) : ndarray := mk_array [length v] v.

(** [np.eye(n)] *)
Definition eye (n : nat) : ndarray :=
  mk_array [n; n]
    (flat_map (fun i => map (fun j => if Nat.eqb i j then 1 else 0) (seq 0 n))
              (seq 0 n)).

(** The sum of products behind [np.dot] and [@]: entry [(i, k, l)] of the
    product of [a], read as an [I x J] matrix, with [b], read as a stack
    of [K] matrices [J x L]; the sum is accumulated from [0.0] in index
    order. *)
Definition sum_prod (J L : nat) (a b : list float) (i k l : nat) : float :=
  fold_left
    (fun acc j => acc + item a (i * J + j) * item b ((k * J + j) * L + l))
    (seq 0 J) 0.

Definition dot_data (I J K L : nat) (a b : list float) : list float :=
  flat_map (fun i =>
    flat_map (fun k => map (fun l => sum_prod J L a b i k l) (seq 0 L))
             (seq 0 K))
    (seq 0 I).

(** [np.dot(a, b)]: a scalar operand multiplies; a one-dimensional [b] is
    summed against the last axis of [a]; otherwise the last axis of [a]
    against the second-to-last axis of [b]. *)
Definition dot (a b : ndarray) : result ndarray :=
  match shape a, shape b with
  | [], _ => Ok (mk_array (shape b) (map (fun y => item (data a) 0 * y) (data b)))
  | _, [] => Ok (mk_array (shape a) (map (fun x => x * item (data b) 0) (data a)))
  | sa, [n] =>
      let J := last sa 0%nat in
      if Nat.eqb J n then
        let I := size_of (removelast sa) in
        Ok (mk_array (removelast sa)
              (map (fun i => sum_prod J 1 (data a) (data b) i 0 0) (seq 0 I)))
      else Raise ValueError
  | sa, sb =>
      let J := last sa 0%nat in
      let L := last sb 0%nat in
      let batch := removelast (removelast sb) in
      if Nat.eqb J (last (removelast sb) 0%nat) then
        Ok (mk_array (removelast sa ++ batch ++ [L])
              (dot_data (size_of (removelast sa)) J (size_of batch) L
                        (data a) (data b)))
      else Raise ValueError
  end.

(** Broadcasting of two stacks of matrices whose batch shapes were padded
    to one length: [sa] and [sb] are the batch shapes, [n x k] and
    [k x m] the matrices. *)
Fixpoint stack_matmul (n k m : nat) (sa sb : list nat) (a b : list float)
  : list float :=
  match sa, sb with
  | x :: sa', y :: sb' =>
      let ca := chunks x (size_of sa' * (n * k)) a in
      let cb := chunks y (size_of sb' * (k * m)) b in
      if Nat.eqb x y then
        flat_map (fun ab => stack_matmul n k m sa' sb' (fst ab) (snd ab))
                 (combine ca cb)
      else if Nat.eqb x 1 then
        flat_map (fun cb_i => stack_matmul n k m sa' sb' a cb_i) cb
      else
        flat_map (fun ca_i => stack_matmul n k m sa' sb' ca_i b) ca
  | _, _ => dot_data n k 1 m a b
  end.

Fixpoint broadcast (sa sb : list nat) : option (list nat) :=
  match sa, sb with
  | x :: sa', y :: sb' =>
      match broadcast sa' sb' with
      | Some s =>
          if Nat.eqb x y then Some (x :: s)
          else if Nat.eqb x 1 then Some (y :: s)
          else if Nat.eqb y 1 then Some (x :: s)
          else None
      | None => None
      end
  | _, _ => Some []
  end.

Definition pad_left (n : nat) (s : list nat) : list nat :=
  repeat 1%nat (n - length s) ++ s.

(** [a @ b] ([np.matmul]): scalars are refused; a one-dimensional operand
    is promoted to a matrix and the added axis removed from the result;
    stacks of matrices are broadcast over their batch axes. *)
Definition matmul (a b : ndarray) : result ndarray :=
  match shape a, shape b with
  | [], _ | _, [] => Raise ValueError
  | sa, sb =>
      let sa2 := match sa with [k] => [1%nat; k] | _ => sa end in
      let sb2 := match sb with [k] => [k; 1%nat] | _ => sb end in
      let n := last (removelast sa2) 0%nat in
      let k := last sa2 0%nat in
      let m := last sb2 0%nat in
      let ba := removelast (removelast sa2) in
      let bb := removelast (removelast sb2) in
      let r := Nat.max (length ba) (length bb) in
      if Nat.eqb k (last (removelast sb2) 0%nat) then
        match broadcast (pad_left r ba) (pad_left r bb) with
        | Some batch =>
            Ok (mk_array
                  (batch ++ (match sa with [_] => [] | _ => [n] end)
                         ++ (match sb with [_] => [] | _ => [m] end))
                  (stack_matmul n k m (pad_left r ba) (pad_left r bb)
                                (data a) (data b)))
        | None => Raise ValueError
        end
      else Raise ValueError
  end.

(** [a.T]: the axes reversed. *)
Fixpoint transpose_data (s : list nat) (d : list float) : list float :=
  match s with
  | [] => d
  | n :: s' =>
      let parts := map (transpose_data s') (chunks n (size_of s') d) in
      flat_map (fun q => map (fun part => item part q) parts)
               (seq 0 (size_of s'))
  end.

Definition transpose (a : ndarray) : ndarray :=
  mk_array (rev (shape a)) (transpose_data (shape a) (data a)).

(** [np.atleast_2d] *)
Definition atleast_2d (a : ndarray) : ndarray :=
  match shape a with
  | [] => mk_array [1; 1]%nat (data a)
  | [n] => mk_array [1%nat; n] (data a)
  | _ => a
  end.

(** [np.ravel] followed by [np.copy] *)
Definition ravel (a : ndarray) : ndarray := mk_array [length (data a)] (data a).

(** [-a] *)
Definition neg (v : list float) : list float := map opp v.

(** [np.diag(v)] of a vector *)
Definition diag (v : list float) : ndarray :=
  let n := length v in
  mk_array [n; n]
    (flat_map (fun i => map (fun j => if Nat.eqb i j then item v i else 0)
                            (seq 0 n))
              (seq 0 n)).

(** [np.linalg.norm] of a vector: [sqrt(dot(x, x))] *)
Definition norm (v : list float) : float :=
  sqrt (fold_left (fun acc x => acc + x * x) v 0).

(** [np.radians]: multiplication by pi/180 *)
Definition radians (x : float) : float := x * 0x1.1df46a2529d39p-6.

(** [np.isclose] and [np.allclose] with the default tolerances
    [rtol=1e-05], [atol=1e-08], [equal_nan=False]; [allclose] is used on
    operands of one shape. *)
Definition rtol : float := 0x1.4f8b588e368f1p-17.
Definition atol : float := 0x1.5798ee2308c3ap-27.

Definition isclose (x y : float) : bool :=
  if is_finite x && is_finite y
  then abs (x - y) <=? atol + rtol * abs y
  else x =? y.

Definition allclose (a b : ndarray) : bool :=
  forallb (fun xy => isclose (fst xy) (snd xy)) (combine (data a) (data b)).

(** [np.array_equal]: one shape and [==] entry by entry. *)
Definition array_equal (a b : ndarray) : bool :=
  shape_eqb (shape a) (shape b)
  && forallb (fun xy => fst xy =? snd xy) (combine (data a) (data b)).

(** The identity but for its first entry, 1 + 2^-40. *)
Definition nearly_identity : ndarray :=
  mk_array [4; 4]%nat
    [0x1.0000000001p0; 0; 0; 0;
     0; 1; 0; 0;
     0; 0; 1; 0;
     0; 0; 0; 1].

(** [np.diag([inf, 1, 1, 1])] *)
Definition infinite_scale : ndarray :=
  mk_array [4; 4]%nat
    [infinity; 0; 0; 0;
     0; 1; 0; 0;
     0; 0; 1; 0;
     0; 0; 0; 1].

(** The product of two 4x4 matrices. *)
Definition product (a b : ndarray) : ndarray :=
  mk_array [4; 4]%nat (dot_data 4 4 1 4 (data a) (data b)).

(** Every entry is a finite number: neither an infinity nor [nan]. *)
Definition all_finite (a : ndarray) : Prop :=
  Forall (fun x => is_finite x = true) (data a).

(** One shape and, entry by entry, the same number. *)
Definition same_entries (a b : ndarray) : Prop :=
  shape a = shape b /\ Forall2 Binary64.same_number (data a) (data b).

End Np.

(** ** microvis/core/_transform.py: the module-level builders *)

Module Builders.

Import Np.
Open Scope float_scope.

(** The two defaults [as_vec4] is called with. *)
Definition position_default : list float := [0; 0; 0; 1].
Definition scale_default : list float := [1; 1; 1; 1].

(** [new[:] = default] on an array [new] whose last axis is 4, [default]
    a sequence of floats: the row every row of [new] becomes. A default
    of 4 entries is that row, one entry is repeated, and any other length
    cannot be broadcast, a [ValueError]. *)
Definition fill_rows (default : list float) : result (list float) :=
  match default with
  | [d] => Ok [d; d; d; d]
  | [_; _; _; _] => Ok default
  | _ => Raise ValueError
  end.

(** [as_vec4(obj, default)]: rows shorter than 4 are completed from
    [default]; rows longer than 4 are refused. *)
Definition as_vec4 (obj : ndarray) (default : list float) : result ndarray :=
  let obj := atleast_2d obj in
  let k := last (shape obj) 0%nat in
  if Nat.ltb k 4 then
    match fill_rows default with
    | Raise e => Raise e
    | Ok filled =>
        let rows := chunks (size_of (removelast (shape obj))) k (data obj) in
        Ok (mk_array (removelast (shape obj) ++ [4%nat])
                     (flat_map (fun row => row ++ skipn k filled) rows))
    end
  else if Nat.ltb 4 k then
    Raise TypeError
  else Ok obj.

(** [a[0, :3]] *)
Definition index0_slice3 (a : ndarray) : result ndarray :=
  match shape a with
  | s0 :: s1 :: rest =>
      if Nat.eqb s0 0 then Raise IndexError
      else Ok (mk_array (Nat.min 3 s1 :: rest)
                        (firstn (Nat.min 3 s1 * size_of rest) (data a)))
  | _ => Raise IndexError
  end.

(** [translate(offset)], [offset] a sequence of floats; any other length
    than 3 is a [ValueError]. *)
Definition translate (offset : list float) : result ndarray :=
  match offset with
  | [x; y; z] =>
      Ok (mk_array [4; 4]%nat
            [1; 0; 0; 0;
             0; 1; 0; 0;
             0; 0; 1; 0;
             x; y; z; 1])
  | _ => Raise ValueError
  end.

(** The matrix [translate((x, y, z))] returns. *)
Definition translation (x y z : float) : ndarray :=
  mk_array [4; 4]%nat
    [1; 0; 0; 0;
     0; 1; 0; 0;
     0; 0; 1; 0;
     x; y; z; 1].

(** [scale(s)], [s] a sequence of floats; any other length than 3 is a
    [ValueError]. *)
Definition scale (s : list float) : result ndarray :=
  if negb (Nat.eqb (length s) 3) then
    Raise ValueError
  else Ok (diag (s ++ [1])).

(** The matrix [scale((a, b, c))] returns. *)
Definition scaling (a b c : float) : ndarray :=
  mk_array [4; 4]%nat
    [a; 0; 0; 0;
     0; b; 0; 0;
     0; 0; c; 0;
     0; 0; 0; 1].

Section Rotate.

(** The C library's [cos] and [sin], which [math.cos] and [math.sin]
    call. *)
Variables cos sin : float -> float.

(** [math.cos(x)] and [math.sin(x)]: an infinite [x] is a [ValueError]
    ("math domain error"); on any other [x], [nan] included, the value of
    the C library's function. *)
Definition math_cos (x : float) : result float :=
  if is_infinity x then Raise ValueError else Ok (cos x).

Definition math_sin (x : float) : result float :=
  if is_infinity x then Raise ValueError else Ok (sin x).

(** [rotate(angle, axis)], [axis] a sequence of floats; any other
    length than 3 is a [ValueError], and so is, from [math.cos], an
    infinite angle with an axis of length 3. *)
Definition rotate (angle : float) (axis : list float) : result ndarray :=
  let angle := radians angle in
  if negb (Nat.eqb (length axis) 3) then
    Raise ValueError
  else
    let n := norm axis in
    let x := item axis 0 / n in
    let y := item axis 1 / n in
    let z := item axis 2 / n in
    match math_cos angle with
    | Raise e => Raise e
    | Ok c =>
    match math_sin angle with
    | Raise e => Raise e
    | Ok s =>
    let cx := (1 - c) * x in
    let cy := (1 - c) * y in
    let cz := (1 - c) * z in
    Ok (transpose (mk_array [4; 4]%nat
          [cx * x + c;     cy * x - z * s; cz * x + y * s; 0;
           cx * y + z * s; cy * y + c;     cz * y - x * s; 0;
           cx * z - y * s; cy * z + x * s; cz * z + c;     0;
           0;              0;              0;              1]))
    end
    end.

End Rotate.

(** A vector handed on to a builder. The builders iterate over their
    argument: an array of one dimension is the sequence of its entries;
    the rows of an array of more dimensions are arrays themselves and the
    builder's result is refused by numpy as inhomogeneous. *)
Definition sequence_of (a : ndarray) : result (list float) :=
  match shape a with
  | [] => Raise TypeError
  | [_] => Ok (data a)
  | _ => Raise ValueError
  end.

End Builders.

(** ** The object heap *)

Module Heap.

Section Heap.

(** The instances of a class, in allocation order: the object at
    location [l] is entry [l]. *)
Variable obj : Type.

Definition loc : Type := nat.
Definition heap : Type := list obj.

(** A computation reads and extends the heap and returns or raises. *)
Definition M (A : Type) : Type := heap -> heap * result A.

Definition ret {A} (a : A) : M A := fun h => (h, Ok a).
Definition raise {A} (e : exn) : M A := fun h => (h, Raise e).
Definition lift {A} (r : result A) : M A := fun h => (h, r).

Definition bind {A B} (m : M A) (k : A -> M B) : M B :=
  fun h =>
    match m h with
    | (h', Ok a) => k a h'
    | (h', Raise e) => (h', Raise e)
    end.

Definition alloc (o : obj) : M loc := fun h => (h ++ [o], Ok (length h)).

(** Reading through a location outside the heap has no counterpart in
    Python; it is reported as [DanglingReference]. *)
Definition read (l : loc) : M obj :=
  fun h =>
    match nth_error h l with
    | Some o => (h, Ok o)
    | None => (h, Raise DanglingReference)
    end.

Definition write (l : loc) (o : obj) : M unit :=
  fun h =>
    match nth_error h l with
    | Some _ => (firstn l h ++ o :: skipn (S l) h, Ok tt)
    | None => (h, Raise DanglingReference)
    end.

End Heap.

Arguments ret {obj A} a.
Arguments raise {obj A} e.
Arguments lift {obj A} r.
Arguments bind {obj A B} m k.
Arguments alloc {obj} o.
Arguments read {obj} l.
Arguments write {obj} l o.

(** [m] leaves the heap it starts from as a prefix of the heap it ends
    in. *)
Definition grows {obj A} (m : M obj A) : Prop :=
  forall h, exists new, fst (m h) = h ++ new.

(** What [m] returns was allocated during its run. *)
Definition allocates {obj} (m : M obj loc) : Prop :=
  forall h l, snd (m h) = Ok l -> length h <= l < length (fst (m h)).

(** [m] keeps the property [P] of heaps, whether it returns or raises. *)
Definition keeps {obj A} (P : heap obj -> Prop) (m : M obj A) : Prop :=
  forall h, P h -> P (fst (m h)).

(** Every object of [h] is an object of [h'], at its location, with its
    fields as they were. *)
Definition preserved {obj} (h h' : heap obj) : Prop :=
  forall l o, nth_error h l = Some o -> nth_error h' l = Some o.

(** [l] is an object of [h'] that [h] did not have. *)
Definition fresh {obj} (h h' : heap obj) (l : loc) : Prop :=
  nth_error h l = None /\ nth_error h' l <> None.

(** Run from [h], the method leaves every object as it was and, when it
    returns, returns an object that did not exist before. *)
Definition returns_new_instance {obj} (m : M obj loc) (h : heap obj) : Prop :=
  preserved h (fst (m h)) /\
  match snd (m h) with
  | Ok l => fresh h (fst (m h)) l
  | Raise _ => True
  end.

End Heap.

Declare Scope heap_scope.
Delimit Scope heap_scope with heap.
Notation "x <- m ;; k" := (Heap.bind m (fun x => k))
  (at level 61, m at next level, right associativity) : heap_scope.

(** ** microvis/core/_transform.py: class Transform *)

Module Transform.

Import Np Builders Heap.
Open Scope float_scope.
Open Scope heap_scope.

(** The fields of an instance. *)
Record instance : Type := { matrix : ndarray }.

Inductive field : Type := f_matrix.

(** [class Config] *)
Definition arbitrary_types_allowed : bool := true.
Definition frozen : bool := true.

(** [Transform.__init__(matrix=None)] *)
Definition init (matrix : option ndarray) : M instance loc :=
  let matrix := match matrix with None => eye 4 | Some a => a end in
  if negb (shape_eqb (shape matrix) [4; 4]%nat) then
    raise ValueError
  else alloc {| matrix := matrix |}.

Definition get_matrix (self : loc) : M instance ndarray :=
  t <- read self ;; ret (matrix t).

(** The matrix of the instance at [l], if there is one. *)
Definition matrix_at (h : heap instance) (l : loc) : option ndarray :=
  option_map matrix (nth_error h l).

(** Every instance holds a matrix of shape (4, 4). *)
Definition all_4x4 (h : heap instance) : Prop :=
  Forall (fun t => shape (matrix t) = [4; 4]%nat) h.

(** What [Transform.validate] is handed: [None], a Transform, an ndarray
    or an object of any other type. *)
Inductive candidate : Type :=
| c_none
| c_transform (v : loc)
| c_ndarray (v : ndarray)
| c_other.

(** [Transform.validate] *)
Definition validate (v : candidate) : M instance loc :=
  match v with
  | c_none => init None
  | c_transform v => ret v
  | c_ndarray v => init (Some v)
  | c_other => raise TypeError
  end.

(** Modelled from the spec: [ModelBase.__setattr__] lives in
    [microvis/core/_base.py], which is not part of the sources at hand.
    "A Model may be declared frozen: after construction no field may be
    reassigned; attempts fail with an immutability error." A model that
    is not frozen stores the value. *)
Definition setattr (self : loc) (name : field) (value : ndarray)
  : M instance unit :=
  if frozen then raise ImmutabilityError
  else
    match name with
    | f_matrix => write self {| matrix := value |}
    end.

(** The right operand of [dot] and [@]: a Transform or an array-like. *)
Inductive operand : Type :=
| a_transform (other : loc)
| an_array (other : ndarray).

Definition matrix_of (other : operand) : M instance ndarray :=
  match other with
  | a_transform l => get_matrix l
  | an_array a => ret a
  end.

(** [Transform.is_null] *)
Definition is_null (self : loc) : M instance bool :=
  m <- get_matrix self ;; ret (allclose m (eye 4)).

(** [Transform.__matmul__] *)
Definition matmul (self : loc) (other : operand) : M instance loc :=
  other <- matrix_of other ;;
  m <- get_matrix self ;;
  r <- lift (Np.matmul m other) ;;
  init (Some r).

(** [Transform.dot] *)
Definition dot (self : loc) (other : operand) : M instance loc :=
  other <- matrix_of other ;;
  m <- get_matrix self ;;
  r <- lift (Np.dot m other) ;;
  init (Some r).

(** [Transform.T] *)
Definition T (self : loc) : M instance loc :=
  m <- get_matrix self ;; init (Some (transpose m)).

(** [Transform.translated] *)
Definition translated (self : loc) (pos : ndarray) : M instance loc :=
  pos <- lift (as_vec4 pos position_default) ;;
  offset <- lift (index0_slice3 pos) ;;
  offset <- lift (sequence_of offset) ;;
  t <- lift (translate offset) ;;
  dot self (an_array t).

(** [Transform.scaled] *)
Definition scaled (self : loc) (scale_factor : ndarray)
    (center : option ndarray) : M instance loc :=
  s <- lift (as_vec4 scale_factor scale_default) ;;
  s <- lift (index0_slice3 s) ;;
  s <- lift (sequence_of s) ;;
  _scale <- lift (scale s) ;;
  match center with
  | Some center =>
      center <- lift (as_vec4 center position_default) ;;
      center <- lift (index0_slice3 center) ;;
      center <- lift (sequence_of center) ;;
      t1 <- lift (translate (neg center)) ;;
      d1 <- lift (Np.dot t1 _scale) ;;
      t2 <- lift (translate center) ;;
      _scale <- lift (Np.dot d1 t2) ;;
      dot self (an_array _scale)
  | None => dot self (an_array _scale)
  end.

(** The [_arg_to_vec4] decorator. Its argument is a tuple, a list or an
    ndarray, given by the array [np.array] makes of it, or any other
    object. *)
Inductive pyobject : Type :=
| a_sequence (a : ndarray)
| another_object.

Definition _arg_to_vec4
    (func : loc -> ndarray -> M instance ndarray)
    (self_ : loc) (arg : pyobject) : M instance ndarray :=
  match arg with
  | another_object => raise TypeError
  | a_sequence arg =>
      let flatten := Nat.eqb (ndim arg) 1 in
      arg <- lift (as_vec4 arg position_default) ;;
      ret_ <- func self_ arg ;;
      ret (if flatten then ravel ret_ else ret_)
  end.

(** [Transform.map] *)
Definition map : loc -> pyobject -> M instance ndarray :=
  _arg_to_vec4 (fun self coords =>
    m <- get_matrix self ;; lift (Np.dot coords m)).

(** [reduce(function, sequence, initial)] *)
Fixpoint reduce (function : loc -> loc -> M instance loc)
    (sequence : list loc) (initial : loc) : M instance loc :=
  match sequence with
  | [] => ret initial
  | b :: rest => a <- function initial b ;; reduce function rest a
  end.

(** [Transform.chain] *)
Definition chain (transforms : list loc) : M instance loc :=
  seed <- init None ;;
  reduce (fun a b => matmul a (a_transform b)) transforms seed.

Section Libm.

(** The C library's [cos] and [sin], handed on to [rotate]. *)
Variables cos sin : float -> float.

(** [Transform.rotated] *)
Definition rotated (self : loc) (angle : float) (axis : list float)
    (about : option ndarray) : M instance loc :=
  match about with
  | Some about =>
      about <- lift (as_vec4 about position_default) ;;
      about <- lift (index0_slice3 about) ;;
      t1 <- translated self (mk_array (shape about) (neg (data about))) ;;
      r <- lift (rotate cos sin angle axis) ;;
      t2 <- dot t1 (an_array r) ;;
      translated t2 about
  | None =>
      r <- lift (rotate cos sin angle axis) ;;
      dot self (an_array r)
  end.

End Libm.

Section Lapack.

(** [np.linalg.inv] *)
Variable linalg_inv : ndarray -> result ndarray.

(** [Transform.inv] *)
Definition inv (self : loc) : M instance loc :=
  m <- get_matrix self ;;
  r <- lift (linalg_inv m) ;;
  init (Some r).

(** [Transform.imap] *)
Definition imap : loc -> pyobject -> M instance ndarray :=
  _arg_to_vec4 (fun self coords =>
    m <- get_matrix self ;;
    i <- lift (linalg_inv m) ;;
    lift (Np.dot coords i)).

End Lapack.

End Transform.

(** ** microvis/core/nodes/node.py *)

Module Node.

Import Heap.
Open Scope float_scope.

(** The declared fields of [class Node]. *)
Inductive field : Type :=
| f_name | f_parent | f_children | f_visible
| f_opacity | f_order | f_interactive | f_transform.

Definition field_name (f : field) : string :=
  match f with
  | f_name => "name"
  | f_parent => "parent"
  | f_children => "children"
  | f_visible => "visible"
  | f_opacity => "opacity"
  | f_order => "order"
  | f_interactive => "interactive"
  | f_transform => "transform"
  end.

(** The values a field is assigned: [None], a [str], a [bool], a [float],
    an [int], a Node, a list of Nodes, a Transform. *)
Inductive value : Type :=
| v_none
| v_str (s : string)
| v_bool (b : bool)
| v_float (x : float)
| v_int (n : Z)
| v_node (l : loc)
| v_nodes (ls : list loc)
| v_transform (l : loc).

(** The operations of [class NodeBackend(Protocol)]. *)
Inductive method : Type :=
| _viz_set_name | _viz_set_parent | _viz_set_children | _viz_set_visible
| _viz_set_opacity | _viz_set_order | _viz_set_interactive
| _viz_set_transform.

Definition method_name (m : method) : string :=
  match m with
  | _viz_set_name => "_viz_set_name"
  | _viz_set_parent => "_viz_set_parent"
  | _viz_set_children => "_viz_set_children"
  | _viz_set_visible => "_viz_set_visible"
  | _viz_set_opacity => "_viz_set_opacity"
  | _viz_set_order => "_viz_set_order"
  | _viz_set_interactive => "_viz_set_interactive"
  | _viz_set_transform => "_viz_set_transform"
  end.

(** A backend satisfying the protocol answers each operation, by returning
    or by raising. *)
Definition NodeBackend : Type := method -> value -> result unit.

(** The state of a Node instance: its fields, with the backend it is
    bound to, if any. *)
Record instance : Type := {
  name : option string;
  parent : option loc;
  children : list loc;
  visible : bool;
  opacity : float;
  order : Z;
  interactive : bool;
  transform : option loc;
  _backend : option NodeBackend
}.

(** [Node()]: every field at its declared default, no backend. *)
Definition default : instance := {|
  name := None;
  parent := None;
  children := [];
  visible := true;
  opacity := 1;
  order := 0%Z;
  interactive := false;
  transform := None;
  _backend := None
|}.

(** The constraint of a field: its declared type and, for [opacity],
    [ge=0, le=1]. *)
Definition validate (f : field) (v : value) : result value :=
  match f, v with
  | f_name, (v_none | v_str _) => Ok v
  | f_parent, (v_none | v_node _) => Ok v
  | f_children, v_nodes _ => Ok v
  | f_visible, v_bool _ => Ok v
  | f_opacity, v_float x =>
      if (0 <=? x) && (x <=? 1) then Ok v
      else Raise (ValidationError (field_name f))
  | f_order, v_int _ => Ok v
  | f_interactive, v_bool _ => Ok v
  | f_transform, (v_none | v_transform _) => Ok v
  | _, _ => Raise (ValidationError (field_name f))
  end.

Definition store (f : field) (v : value) (n : instance) : instance :=
  match f, v with
  | f_name, v_none =>
      {| name := None; parent := parent n; children := children n;
         visible := visible n; opacity := opacity n; order := order n;
         interactive := interactive n; transform := transform n;
         _backend := _backend n |}
  | f_name, v_str s =>
      {| name := Some s; parent := parent n; children := children n;
         visible := visible n; opacity := opacity n; order := order n;
         interactive := interactive n; transform := transform n;
         _backend := _backend n |}
  | f_parent, v_none =>
      {| name := name n; parent := None; children := children n;
         visible := visible n; opacity := opacity n; order := order n;
         interactive := interactive n; transform := transform n;
         _backend := _backend n |}
  | f_parent, v_node l =>
      {| name := name n; parent := Some l; children := children n;
         visible := visible n; opacity := opacity n; order := order n;
         interactive := interactive n; transform := transform n;
         _backend := _backend n |}
  | f_children, v_nodes ls =>
      {| name := name n; parent := parent n; children := ls;
         visible := visible n; opacity := opacity n; order := order n;
         interactive := interactive n; transform := transform n;
         _backend := _backend n |}
  | f_visible, v_bool b =>
      {| name := name n; parent := parent n; children := children n;
         visible := b; opacity := opacity n; order := order n;
         interactive := interactive n; transform := transform n;
         _backend := _backend n |}
  | f_opacity, v_float x =>
      {| name := name n; parent := parent n; children := children n;
         visible := visible n; opacity := x; order := order n;
         interactive := interactive n; transform := transform n;
         _backend := _backend n |}
  | f_order, v_int z =>
      {| name := name n; parent := parent n; children := children n;
         visible := visible n; opacity := opacity n; order := z;
         interactive := interactive n; transform := transform n;
         _backend := _backend n |}
  | f_interactive, v_bool b =>
      {| name := name n; parent := parent n; children := children n;
         visible := visible n; opacity := opacity n; order := order n;
         interactive := b; transform := transform n;
         _backend := _backend n |}
  | f_transform, v_none =>
      {| name := name n; parent := parent n; children := children n;
         visible := visible n; opacity := opacity n; order := order n;
         interactive := interactive n; transform := None;
         _backend := _backend n |}
  | f_transform, v_transform l =>
      {| name := name n; parent := parent n; children := children n;
         visible := visible n; opacity := opacity n; order := order n;
         interactive := interactive n; transform := Some l;
         _backend := _backend n |}
  | _, _ => n
  end.

(** [getattr(node, field)] *)
Definition get (f : field) (n : instance) : value :=
  match f with
  | f_name => match name n with Some s => v_str s | None => v_none end
  | f_parent => match parent n with Some l => v_node l | None => v_none end
  | f_children => v_nodes (children n)
  | f_visible => v_bool (visible n)
  | f_opacity => v_float (opacity n)
  | f_order => v_int (order n)
  | f_interactive => v_bool (interactive n)
  | f_transform =>
      match transform n with Some l => v_transform l | None => v_none end
  end.

(** The naming convention of the protocol: field [x] is mirrored by
    [_viz_set_x]. *)
Definition setter_of (f : field) : method :=
  match f with
  | f_name => _viz_set_name
  | f_parent => _viz_set_parent
  | f_children => _viz_set_children
  | f_visible => _viz_set_visible
  | f_opacity => _viz_set_opacity
  | f_order => _viz_set_order
  | f_interactive => _viz_set_interactive
  | f_transform => _viz_set_transform
  end.

(** What is observed of a run: the Node and the calls made on backends,
    oldest first. *)
Record world : Type := {
  node : instance;
  calls : list (method * value)
}.

(** Modelled from the spec: the binding of a front end to its backend is
    [FrontEndFor] of [microvis/core/_base.py], which is not part of the
    sources at hand. "A front-end instance starts unbound (no backend).
    Binding is established [...] by supplying [...] a backend instance
    conforming to the protocol." *)
Definition attach (b : NodeBackend) (w : world) : world :=
  let n := node w in
  {| node :=
       {| name := name n; parent := parent n; children := children n;
          visible := visible n; opacity := opacity n; order := order n;
          interactive := interactive n; transform := transform n;
          _backend := Some b |};
     calls := calls w |}.

(** Modelled from the spec: field assignment is [ModelBase] and
    [FrontEndFor] of [microvis/core/_base.py], which is not part of the
    sources at hand. "Assignment to a field after construction
    re-validates and, on success, replaces the stored value and triggers
    the change-notification hook [...]; on failure the old value is
    retained and the error is surfaced to the caller." "On every
    successful field mutation of a bound front end, the binding layer
    looks up the operation corresponding to the changed field and invokes
    it on the attached backend with the new value. If unbound, no call
    occurs." "Backend operation failures [...] propagate synchronously to
    the caller [...]; the front-end field value is NOT rolled back." *)
Definition setattr (f : field) (v : value) (w : world) : world * result unit :=
  match validate f v with
  | Raise e => (w, Raise e)
  | Ok v =>
      let n := store f v (node w) in
      match _backend n with
      | None => ({| node := n; calls := calls w |}, Ok tt)
      | Some backend =>
          ({| node := n; calls := calls w ++ [(setter_of f, v)] |},
           backend (setter_of f) v)
      end
  end.

End Node.

(** * Facts *)

(** ** binary64 arithmetic *)

Module Binary64Facts.

Import Binary64.
Open Scope float_scope.

Lemma SFcompare_refl_finite s m e :
  SFcompare (S754_finite s m e) (S754_finite s m e) = Some Eq.
Proof.
  cbn. destruct s; rewrite Z.compare_refl;
    change (Pos.compare_cont Eq m m) with (Pos.compare m m);
    rewrite Pos.compare_refl; reflexivity.
Qed.

Lemma is_zero_kind (x : float) : is_zero x = true <-> kind_of x = k_zero.
Proof.
  unfold is_zero, kind_of. rewrite eqb_spec.
  change (Prim2SF zero) with (S754_zero false).
  destruct (Prim2SF x) as [s|s| |s m e]; cbn; split; intros H;
    try discriminate; try reflexivity; destruct s; discriminate.
Qed.

Lemma is_finite_kind (x : float) :
  is_finite x = true <-> kind_of x = k_zero \/ kind_of x = k_finite.
Proof.
  unfold is_finite, is_nan, is_infinity, kind_of.
  rewrite !eqb_spec, abs_spec. change (Prim2SF infinity) with (S754_infinity false).
  destruct (Prim2SF x) as [s|s| |s m e].
  - cbn. intuition.
  - destruct s; cbn; (split; [discriminate | intros [H|H]; discriminate]).
  - cbn. split; [discriminate | intros [H|H]; discriminate].
  - unfold SFeqb at 1. rewrite SFcompare_refl_finite. cbn. intuition.
Qed.

Lemma mul_1_l_finite (s : bool) (m : positive) (e : Z) :
  bounded prec emax m e = true ->
  SF64mul (S754_finite false 4503599627370496 (-52)) (S754_finite s m e)
  = S754_finite s m e.
Proof.
  intros Hb. unfold bounded, canonical_mantissa in Hb.
  apply andb_prop in Hb. destruct Hb as [Hc He].
  apply Z.eqb_eq in Hc.
  assert (Hd : Z.pos (digits2_pos (4503599627370496 * m))
               = (Z.pos (digits2_pos m) + 52)%Z).
  { change (4503599627370496 * m)%positive with
      (m~0~0~0~0~0~0~0~0~0~0~0~0~0~0~0~0~0~0~0~0~0~0~0~0~0~0
        ~0~0~0~0~0~0~0~0~0~0~0~0~0~0~0~0~0~0~0~0~0~0~0~0~0~0)%positive.
    cbn [digits2_pos]. lia. }
  unfold SF64mul, SFmul. cbn [xorb].
  unfold binary_round_aux, shr_fexp. cbn [Zdigits2 shr_record_of_loc].
  rewrite Hd.
  replace (Z.pos (digits2_pos m) + 52 + (-52 + e))%Z
    with (Z.pos (digits2_pos m) + e)%Z by lia.
  rewrite Hc.
  replace (e - (-52 + e))%Z with 52%Z by lia.
  change (4503599627370496 * m)%positive with
    (m~0~0~0~0~0~0~0~0~0~0~0~0~0~0~0~0~0~0~0~0~0~0~0~0~0~0
      ~0~0~0~0~0~0~0~0~0~0~0~0~0~0~0~0~0~0~0~0~0~0~0~0~0~0)%positive.
  cbn [shr iter_pos shr_1 orb shr_m loc_of_shr_record round_nearest_even Zdigits2].
  replace (-52 + e + 52)%Z with e by lia.
  rewrite Hc, Z.sub_diag. cbn [shr shr_m].
  rewrite He. reflexivity.
Qed.

(** Multiplication by [1.0] is exact, whatever the other factor. *)
Lemma mul_1_l (x : float) : 1 * x = x.
Proof.
  apply Prim2SF_inj. rewrite mul_spec.
  change (Prim2SF 1) with (S754_finite false 4503599627370496 (-52)).
  pose proof (Prim2SF_valid x) as Hv.
  destruct (Prim2SF x) as [s|s| |s m e]; try reflexivity.
  apply mul_1_l_finite. exact Hv.
Qed.

(** [nan] absorbs. *)
Lemma mul_nan_l (x : float) : nan * x = nan.
Proof. apply Prim2SF_inj. rewrite mul_spec. reflexivity. Qed.

Lemma mul_nan_r (x : float) : x * nan = nan.
Proof.
  apply Prim2SF_inj. rewrite mul_spec. change (Prim2SF nan) with S754_nan.
  destruct (Prim2SF x); reflexivity.
Qed.

Lemma add_nan_l (x : float) : nan + x = nan.
Proof. apply Prim2SF_inj. rewrite add_spec. reflexivity. Qed.

Lemma add_nan_r (x : float) : x + nan = nan.
Proof.
  apply Prim2SF_inj. rewrite add_spec. change (Prim2SF nan) with S754_nan.
  destruct (Prim2SF x); reflexivity.
Qed.

Lemma sub_nan_l (x : float) : nan - x = nan.
Proof. apply Prim2SF_inj. rewrite sub_spec. reflexivity. Qed.

Lemma sub_nan_r (x : float) : x - nan = nan.
Proof.
  apply Prim2SF_inj. rewrite sub_spec. change (Prim2SF nan) with S754_nan.
  destruct (Prim2SF x); reflexivity.
Qed.

(** ** Equality up to the sign of zero *)

Lemma same_number_refl x : same_number x x.
Proof. left. reflexivity. Qed.

Lemma same_number_sym x y : same_number x y -> same_number y x.
Proof. intros [H|[H1 H2]]; [left; auto | right; auto]. Qed.

Lemma same_number_trans x y z :
  same_number x y -> same_number y z -> same_number x z.
Proof.
  intros [H|[H1 H2]] [H'|[H1' H2']]; subst; try (left; reflexivity);
    right; auto.
Qed.

Lemma same_number_zero x y :
  same_number x y -> is_zero x = true -> is_zero y = true.
Proof. intros [H|[H1 H2]] Hz; subst; auto. Qed.

(** A zero factor and a finite factor give a zero. *)
Lemma mul_zero_finite (z x : float) :
  is_zero z = true -> is_finite x = true -> is_zero (z * x) = true.
Proof.
  rewrite !is_zero_kind, is_finite_kind. unfold kind_of.
  rewrite mul_spec. unfold SF64mul.
  destruct (Prim2SF z), (Prim2SF x); cbn; intros Hz Hx;
    try discriminate; try reflexivity; destruct Hx; discriminate.
Qed.

(** Adding a zero changes at most the sign of a zero. *)
Lemma add_zero_l (z x : float) : is_zero z = true -> same_number (z + x) x.
Proof.
  intros Hz. apply is_zero_kind in Hz. unfold kind_of in Hz.
  destruct (Prim2SF z) as [sz| | |] eqn:Ez; try discriminate.
  destruct (Prim2SF x) as [s|s| |s m e] eqn:Ex.
  - right. rewrite !is_zero_kind. unfold kind_of. rewrite add_spec, Ez, Ex.
    split; [|reflexivity]. destruct sz, s; reflexivity.
  - left. apply Prim2SF_inj. rewrite add_spec, Ez, Ex. reflexivity.
  - left. apply Prim2SF_inj. rewrite add_spec, Ez, Ex. reflexivity.
  - left. apply Prim2SF_inj. rewrite add_spec, Ez, Ex. reflexivity.
Qed.

Lemma add_zero_r (x z : float) : is_zero z = true -> same_number (x + z) x.
Proof.
  intros Hz. apply is_zero_kind in Hz. unfold kind_of in Hz.
  destruct (Prim2SF z) as [sz| | |] eqn:Ez; try discriminate.
  destruct (Prim2SF x) as [s|s| |s m e] eqn:Ex.
  - right. rewrite !is_zero_kind. unfold kind_of. rewrite add_spec, Ez, Ex.
    split; [|reflexivity]. destruct sz, s; reflexivity.
  - left. apply Prim2SF_inj. rewrite add_spec, Ez, Ex. reflexivity.
  - left. apply Prim2SF_inj. rewrite add_spec, Ez, Ex. reflexivity.
  - left. apply Prim2SF_inj. rewrite add_spec, Ez, Ex. reflexivity.
Qed.

Lemma add_same_number x x' y y' :
  same_number x x' -> same_number y y' -> same_number (x + y) (x' + y').
Proof.
  intros Hx Hy.
  assert (L : forall a b b', same_number b b' -> same_number (a + b) (a + b')).
  { intros a b b' [H|[H1 H2]]; [subst; left; reflexivity|].
    eapply same_number_trans; [apply add_zero_r; exact H1|].
    apply same_number_sym, add_zero_r; exact H2. }
  assert (R : forall a a' b, same_number a a' -> same_number (a + b) (a' + b)).
  { intros a a' b [H|[H1 H2]]; [subst; left; reflexivity|].
    eapply same_number_trans; [apply add_zero_l; exact H1|].
    apply same_number_sym, add_zero_l; exact H2. }
  eapply same_number_trans; [apply R; exact Hx | apply L; exact Hy].
Qed.

(** A product by a zero is a zero or [nan], whichever zero it is. *)
Lemma mul_zero_l_any (z z' x : float) :
  is_zero z = true -> is_zero z' = true -> same_number (z * x) (z' * x).
Proof.
  intros Hz Hz'. apply is_zero_kind in Hz, Hz'. unfold kind_of in Hz, Hz'.
  destruct (Prim2SF z) as [sz| | |] eqn:Ez; try discriminate.
  destruct (Prim2SF z') as [sz'| | |] eqn:Ez'; try discriminate.
  destruct (Prim2SF x) as [s|s| |s m e] eqn:Ex.
  - right. rewrite !is_zero_kind. unfold kind_of.
    rewrite !mul_spec, Ez, Ez', Ex. split; reflexivity.
  - left. apply Prim2SF_inj. rewrite !mul_spec, Ez, Ez', Ex. reflexivity.
  - left. apply Prim2SF_inj. rewrite !mul_spec, Ez, Ez', Ex. reflexivity.
  - right. rewrite !is_zero_kind. unfold kind_of.
    rewrite !mul_spec, Ez, Ez', Ex. split; reflexivity.
Qed.

Lemma mul_zero_r_any (x z z' : float) :
  is_zero z = true -> is_zero z' = true -> same_number (x * z) (x * z').
Proof.
  intros Hz Hz'. apply is_zero_kind in Hz, Hz'. unfold kind_of in Hz, Hz'.
  destruct (Prim2SF z) as [sz| | |] eqn:Ez; try discriminate.
  destruct (Prim2SF z') as [sz'| | |] eqn:Ez'; try discriminate.
  destruct (Prim2SF x) as [s|s| |s m e] eqn:Ex.
  - right. rewrite !is_zero_kind. unfold kind_of.
    rewrite !mul_spec, Ez, Ez', Ex. split; reflexivity.
  - left. apply Prim2SF_inj. rewrite !mul_spec, Ez, Ez', Ex. reflexivity.
  - left. apply Prim2SF_inj. rewrite !mul_spec, Ez, Ez', Ex. reflexivity.
  - right. rewrite !is_zero_kind. unfold kind_of.
    rewrite !mul_spec, Ez, Ez', Ex. split; reflexivity.
Qed.

Lemma mul_same_number x x' y y' :
  same_number x x' -> same_number y y' -> same_number (x * y) (x' * y').
Proof.
  intros Hx Hy.
  eapply same_number_trans with (y := x' * y).
  - destruct Hx as [H|[H1 H2]]; [subst; left; reflexivity|].
    apply mul_zero_l_any; assumption.
  - destruct Hy as [H|[H1 H2]]; [subst; left; reflexivity|].
    apply mul_zero_r_any; assumption.
Qed.


Lemma add_zero_zero (a b : float) :
  is_zero a = true -> is_zero b = true -> is_zero (a + b) = true.
Proof.
  intros Ha Hb.
  apply same_number_zero with (x := b); [|exact Hb].
  apply same_number_sym, add_zero_l, Ha.
Qed.

(** Adding a zero to a number that is not a zero gives that number. *)
Lemma add_zero_r_exact (x z : float) :
  is_zero z = true -> is_zero x = false -> x + z = x.
Proof.
  intros Hz Hx. destruct (add_zero_r x z Hz) as [H|[_ H]]; [exact H|].
  rewrite H in Hx. discriminate.
Qed.

(** [0.0] plus a zero is [0.0]. *)
Lemma add_pos_zero_l (z : float) : is_zero z = true -> 0 + z = 0.
Proof.
  intros Hz. apply is_zero_kind in Hz. unfold kind_of in Hz.
  apply Prim2SF_inj. rewrite add_spec. change (Prim2SF 0) with (S754_zero false).
  destruct (Prim2SF z) as [[|]| | |]; try discriminate; reflexivity.
Qed.

(** Numbers that are the same compare equal, [nan] apart. *)
Lemma same_number_eqb (x y : float) :
  same_number x y -> is_nan y = false -> (x =? y) = true.
Proof.
  intros [H|[H1 H2]] Hn.
  - subst. unfold is_nan in Hn. destruct (y =? y); [reflexivity|discriminate].
  - apply is_zero_kind in H1, H2. unfold kind_of in H1, H2.
    rewrite eqb_spec.
    destruct (Prim2SF x); try discriminate.
    destruct (Prim2SF y); try discriminate. reflexivity.
Qed.

End Binary64Facts.

(** ** Rounding: [np.radians] does not overflow *)

Module RoundingFacts.

Import Np.
Local Open Scope Z_scope.

Lemma digits2_size (p : positive) : digits2_pos p = Pos.size p.
Proof. induction p; cbn; congruence. Qed.

Lemma pos_lt_pow_digits (p : positive) : Z.pos p < 2 ^ Z.pos (digits2_pos p).
Proof.
  rewrite digits2_size. pose proof (Pos.size_gt p) as H.
  apply Pos2Z.pos_lt_pos in H. now rewrite Pos2Z.inj_pow in H.
Qed.

Lemma pow_digits_le_pos (p : positive) :
  2 ^ Z.pos (digits2_pos p) <= 2 * Z.pos p.
Proof.
  rewrite digits2_size. pose proof (Pos.size_le p) as H.
  apply Pos2Z.pos_le_pos in H. now rewrite Pos2Z.inj_pow in H.
Qed.

Lemma digits_nonneg (z : Z) : 0 <= z -> 0 <= Zdigits2 z.
Proof. destruct z; cbn; lia. Qed.

Lemma lt_pow_digits (z : Z) : 0 <= z -> z < 2 ^ Zdigits2 z.
Proof.
  destruct z as [|p|p]; cbn [Zdigits2]; intros H; [reflexivity| |lia].
  apply pos_lt_pow_digits.
Qed.

(** A number of at most [2 ^ k] has at most [k + 1] digits. *)
Lemma digits_le (z k : Z) : 0 <= k -> 0 <= z <= 2 ^ k -> Zdigits2 z <= k + 1.
Proof.
  intros K [Z0 Zk]. destruct z as [|p|p]; cbn [Zdigits2]; [lia| |lia].
  pose proof (pow_digits_le_pos p) as H.
  destruct (Z_le_gt_dec (Z.pos (digits2_pos p)) (k + 1)) as [L|G]; [exact L|].
  assert (2 ^ (k + 2) <= 2 ^ Z.pos (digits2_pos p))
    by (apply Z.pow_le_mono_r; lia).
  replace (k + 2) with (k + 1 + 1) in H0 by lia.
  rewrite !Z.pow_add_r in H0 by lia. lia.
Qed.

(** A number below [2 ^ k] has at most [k] digits. *)
Lemma digits_lt (z k : Z) : 0 <= k -> 0 <= z < 2 ^ k -> Zdigits2 z <= k.
Proof.
  intros K [Z0 Zk]. destruct z as [|p|p]; cbn [Zdigits2]; [lia| |lia].
  pose proof (pow_digits_le_pos p) as H.
  destruct (Z_le_gt_dec (Z.pos (digits2_pos p)) k) as [L|G]; [exact L|].
  assert (2 ^ (k + 1) <= 2 ^ Z.pos (digits2_pos p))
    by (apply Z.pow_le_mono_r; lia).
  rewrite Z.pow_add_r in H0 by lia. lia.
Qed.

Lemma shr_1_half (mrs : shr_record) :
  0 <= shr_m mrs -> 0 <= shr_m (shr_1 mrs) /\ 2 * shr_m (shr_1 mrs) <= shr_m mrs.
Proof.
  destruct mrs as [m r s]. cbn [shr_m]. intros H.
  destruct m as [|[p|p|]|p]; cbn; lia.
Qed.

Lemma pow_xO (p : positive) : 2 ^ Z.pos p~0 = 2 ^ Z.pos p * 2 ^ Z.pos p.
Proof.
  assert (E : Z.pos p~0 = Z.pos p + Z.pos p) by lia.
  rewrite E. apply Z.pow_add_r; lia.
Qed.

Lemma pow_xI (p : positive) :
  2 ^ Z.pos p~1 = 2 * (2 ^ Z.pos p * 2 ^ Z.pos p).
Proof.
  assert (E : Z.pos p~1 = 1 + Z.pos p~0) by lia.
  rewrite E, Z.pow_add_r, pow_xO by lia. reflexivity.
Qed.

Lemma iter_shr_1 (p : positive) (mrs : shr_record) :
  0 <= shr_m mrs ->
  0 <= shr_m (iter_pos shr_1 p mrs)
  /\ 2 ^ Z.pos p * shr_m (iter_pos shr_1 p mrs) <= shr_m mrs.
Proof.
  revert mrs. induction p as [p IH|p IH|]; intros mrs H; cbn [iter_pos].
  - destruct (shr_1_half mrs H) as [A1 A2].
    destruct (IH _ A1) as [B1 B2]. destruct (IH _ B1) as [C1 C2].
    split; [exact C1|]. rewrite pow_xI.
    assert (0 < 2 ^ Z.pos p) by (apply Z.pow_pos_nonneg; lia). nia.
  - destruct (IH _ H) as [B1 B2]. destruct (IH _ B1) as [C1 C2].
    split; [exact C1|]. rewrite pow_xO.
    assert (0 < 2 ^ Z.pos p) by (apply Z.pow_pos_nonneg; lia). nia.
  - destruct (shr_1_half mrs H) as [A1 A2]. split; [exact A1|].
    change (2 ^ 1) with 2. lia.
Qed.

Lemma shr_m_of_loc m l : shr_m (shr_record_of_loc m l) = m.
Proof. destruct l as [|[]]; reflexivity. Qed.

(** What [shr_fexp] hands back: the exponent, and a bound on the
    mantissa. *)
Lemma shr_fexp_bound (m e : Z) (l : location) (K : Z) :
  0 <= m -> Zdigits2 m + e <= K -> e <= K - 53 -> -1074 <= K - 53 ->
  exists k, 0 <= k
    /\ 0 <= shr_m (fst (shr_fexp prec emax m e l)) < 2 ^ k
    /\ k + snd (shr_fexp prec emax m e l) <= K
    /\ snd (shr_fexp prec emax m e l) <= K - 53.
Proof.
  intros M D E B. unfold shr_fexp, shr.
  pose proof (digits_nonneg m M) as Dn.
  pose proof (lt_pow_digits m M) as Dm.
  destruct (fexp prec emax (Zdigits2 m + e) - e) as [|p|p] eqn:N;
    cbn [fst snd].
  - exists (Zdigits2 m). rewrite shr_m_of_loc. lia.
  - unfold fexp, SpecFloat.emin, prec, emax in N.
    destruct (iter_shr_1 p (shr_record_of_loc m l)) as [A1 A2];
      [now rewrite shr_m_of_loc|].
    rewrite shr_m_of_loc in A2.
    set (q := shr_m (iter_pos shr_1 p (shr_record_of_loc m l))) in *.
    exists (Z.max (Zdigits2 m - Z.pos p) 0).
    split; [lia|]. split; [|split; lia].
    split; [exact A1|].
    destruct (Z_lt_ge_dec q (2 ^ Z.max (Zdigits2 m - Z.pos p) 0))
      as [L|G]; [exact L|exfalso].
    assert (2 ^ Zdigits2 m <= 2 ^ (Z.pos p + Z.max (Zdigits2 m - Z.pos p) 0))
      by (apply Z.pow_le_mono_r; lia).
    rewrite Z.pow_add_r in H by lia.
    assert (0 < 2 ^ Z.pos p) by (apply Z.pow_pos_nonneg; lia). nia.
  - exists (Zdigits2 m). rewrite shr_m_of_loc. lia.
Qed.

Lemma round_nearest_even_bound (m : Z) (l : location) :
  m <= round_nearest_even m l <= m + 1.
Proof.
  unfold round_nearest_even. destruct l as [|[]]; try lia.
  destruct (Z.even m); lia.
Qed.

(** Rounding a mantissa of value below [2 ^ 1023] does not overflow. *)
Lemma binary_round_aux_no_overflow (s s' : bool) (m e : Z) (l : location) :
  0 <= m -> Zdigits2 m + e <= 1023 -> e <= 970 ->
  binary_round_aux prec emax s m e l <> S754_infinity s'.
Proof.
  intros M D E. unfold binary_round_aux.
  destruct (shr_fexp_bound m e l 1023 M D) as [k [K0 [[A1 A2] [A3 A4]]]];
    [lia|lia|].
  destruct (shr_fexp prec emax m e l) as [mrs' e']. cbn [fst snd] in *.
  pose proof (round_nearest_even_bound (shr_m mrs') (loc_of_shr_record mrs'))
    as R.
  set (m'' := round_nearest_even (shr_m mrs') (loc_of_shr_record mrs')) in *.
  assert (D'' : Zdigits2 m'' <= k + 1) by (apply digits_le; lia).
  destruct (shr_fexp_bound m'' e' loc_Exact 1024) as [k' [_ [_ [_ B]]]];
    [lia|lia|lia|lia|].
  destruct (shr_fexp prec emax m'' e' loc_Exact) as [mrs'' e''].
  cbn [fst snd] in *.
  destruct (shr_m mrs''); try discriminate.
  unfold prec, emax.
  destruct (Z.leb_spec e'' (1024 - 53)); [discriminate | lia].
Qed.

Lemma is_infinity_spec (x : float) :
  is_infinity x = true <-> exists s, Prim2SF x = S754_infinity s.
Proof.
  unfold is_infinity. rewrite eqb_spec, abs_spec.
  change (Prim2SF infinity) with (S754_infinity false).
  destruct (Prim2SF x) as [s|s| |s m e]; cbn; split;
    try discriminate; try (intros [s' H]; discriminate).
  - intros _. now exists s.
  - reflexivity.
Qed.

(** [np.radians] of an angle is infinite exactly when the angle is. *)
Lemma radians_infinite (x : float) :
  is_infinity (radians x) = is_infinity x.
Proof.
  apply eq_true_iff_eq. rewrite !is_infinity_spec. unfold radians.
  rewrite mul_spec.
  change (Prim2SF 0x1.1df46a2529d39p-6)
    with (S754_finite false 5030569068109113 (-58)).
  pose proof (Prim2SF_valid x) as V.
  destruct (Prim2SF x) as [s|s| |s m e]; cbn [SF64mul SFmul xorb].
  - split; intros [s' H]; discriminate.
  - split; intros _; eexists; reflexivity.
  - split; intros [s' H]; discriminate.
  - split; [|intros [s' H]; discriminate]. intros [s' H]. exfalso.
    revert H. apply binary_round_aux_no_overflow; [lia| |].
    + unfold valid_binary, SpecFloat.valid_binary, bounded, canonical_mantissa, fexp,
        SpecFloat.emin, prec, emax in V.
      apply andb_true_iff in V. destruct V as [V1 V2].
      apply Z.eqb_eq in V1. apply Z.leb_le in V2.
      assert (Dm : Z.pos (digits2_pos m) <= 53) by lia.
      assert (Zdigits2 (Z.pos (m * 5030569068109113)) <= Z.pos (digits2_pos m) + 53).
      { apply digits_lt; [lia|]. split; [lia|].
        rewrite Pos2Z.inj_mul, Z.pow_add_r by lia.
        pose proof (pos_lt_pow_digits m).
        assert (5030569068109113 < 2 ^ 53) by reflexivity. nia. }
      lia.
    + unfold valid_binary, SpecFloat.valid_binary, bounded in V.
      apply andb_true_iff in V. destruct V as [_ V2].
      apply Z.leb_le in V2. unfold prec, emax in V2. lia.
Qed.

End RoundingFacts.

(** ** The heap only grows *)

Module HeapFacts.

Import Heap.
Open Scope heap_scope.

Section Grows.

Variable obj : Type.

Lemma grows_ret {A} (a : A) : grows (@ret obj A a).
Proof. intros h. exists []. cbn. now rewrite app_nil_r. Qed.

Lemma grows_raise {A} (e : exn) : grows (@raise obj A e).
Proof. intros h. exists []. cbn. now rewrite app_nil_r. Qed.

Lemma grows_lift {A} (r : result A) : grows (@lift obj A r).
Proof. intros h. exists []. cbn. now rewrite app_nil_r. Qed.

Lemma grows_read (l : loc) : grows (@read obj l).
Proof.
  intros h. exists []. unfold read.
  destruct (nth_error h l); cbn; now rewrite app_nil_r.
Qed.

Lemma grows_alloc (o : obj) : grows (alloc o).
Proof. intros h. exists [o]. reflexivity. Qed.

Lemma grows_bind {A B} (m : M obj A) (k : A -> M obj B) :
  grows m -> (forall a, grows (k a)) -> grows (bind m k).
Proof.
  intros Hm Hk h. unfold bind. destruct (Hm h) as [n1 E1].
  destruct (m h) as [h1 [a|e]]; cbn in E1; subst h1.
  - destruct (Hk a (h ++ n1)) as [n2 E2]. exists (n1 ++ n2).
    rewrite E2. now rewrite app_assoc.
  - exists n1. reflexivity.
Qed.

Lemma allocates_alloc (o : obj) : allocates (alloc o).
Proof.
  intros h l E. cbn in *. injection E as <-. rewrite length_app. cbn. lia.
Qed.

Lemma allocates_raise (e : exn) : allocates (@raise obj loc e).
Proof. intros h l E. discriminate. Qed.

Lemma allocates_bind {A} (m : M obj A) (k : A -> M obj loc) :
  grows m -> (forall a, allocates (k a)) -> allocates (bind m k).
Proof.
  intros Hm Hk h l. unfold bind. destruct (Hm h) as [n1 E1].
  destruct (m h) as [h1 [a|e]]; cbn in E1; subst h1; [|discriminate].
  intros E. specialize (Hk a (h ++ n1) l E).
  rewrite length_app in Hk. lia.
Qed.

(** A method that only allocates returns a new instance. *)
Lemma new_instance (m : M obj loc) (h : heap obj) :
  grows m -> allocates m -> returns_new_instance m h.
Proof.
  intros Hg Ha. unfold returns_new_instance, preserved, fresh.
  destruct (Hg h) as [new E]. specialize (Ha h).
  destruct (m h) as [h' r]. cbn in *. subst h'. split.
  - intros l o Hl. rewrite nth_error_app1; [exact Hl|].
    apply nth_error_Some. congruence.
  - destruct r as [l|e]; [|exact I].
    specialize (Ha l eq_refl). split.
    + apply nth_error_None. lia.
    + apply nth_error_Some. lia.
Qed.

End Grows.

End HeapFacts.

(** ** Transform: no method writes to an instance *)

Module TransformFacts.

Import Np Builders Heap HeapFacts.
Open Scope heap_scope.

Create HintDb heap.

#[local] Hint Resolve grows_ret grows_raise grows_lift grows_read grows_alloc
  allocates_alloc allocates_raise : heap.

Ltac grows :=
  repeat first
    [ apply grows_bind; [|intros ?]
    | apply grows_ret | apply grows_raise | apply grows_lift
    | apply grows_read | apply grows_alloc ].

Lemma grows_init (matrix : option ndarray) : grows (Transform.init matrix).
Proof. unfold Transform.init. destruct (negb _); grows. Qed.

Lemma allocates_init (matrix : option ndarray) :
  allocates (Transform.init matrix).
Proof.
  unfold Transform.init. destruct (negb _); auto with heap.
Qed.

Lemma grows_get_matrix (self : loc) : grows (Transform.get_matrix self).
Proof. unfold Transform.get_matrix. grows. Qed.

Lemma grows_matrix_of (other : Transform.operand) :
  grows (Transform.matrix_of other).
Proof. destruct other; cbn; [apply grows_get_matrix | grows]. Qed.

#[local] Hint Resolve grows_init allocates_init grows_get_matrix
  grows_matrix_of : heap.

Ltac allocates :=
  repeat first
    [ solve [auto with heap]
    | apply allocates_bind; [solve [auto with heap] | intros ?] ].

Lemma grows_dot self other : grows (Transform.dot self other).
Proof. unfold Transform.dot. grows; auto with heap. Qed.

Lemma allocates_dot self other : allocates (Transform.dot self other).
Proof. unfold Transform.dot. allocates. Qed.

Lemma grows_matmul self other : grows (Transform.matmul self other).
Proof. unfold Transform.matmul. grows; auto with heap. Qed.

Lemma allocates_matmul self other : allocates (Transform.matmul self other).
Proof. unfold Transform.matmul. allocates. Qed.

Lemma grows_T self : grows (Transform.T self).
Proof. unfold Transform.T. grows; auto with heap. Qed.

Lemma allocates_T self : allocates (Transform.T self).
Proof. unfold Transform.T. allocates. Qed.

#[local] Hint Resolve grows_dot allocates_dot : heap.

Lemma grows_translated self pos : grows (Transform.translated self pos).
Proof. unfold Transform.translated. grows; auto with heap. Qed.

Lemma allocates_translated self pos :
  allocates (Transform.translated self pos).
Proof.
  unfold Transform.translated. allocates.
Qed.

#[local] Hint Resolve grows_translated allocates_translated : heap.

Lemma grows_scaled self scale_factor center :
  grows (Transform.scaled self scale_factor center).
Proof. unfold Transform.scaled. destruct center; grows; auto with heap. Qed.

Lemma allocates_scaled self scale_factor center :
  allocates (Transform.scaled self scale_factor center).
Proof.
  unfold Transform.scaled. destruct center; allocates.
Qed.

Lemma grows_rotated cos sin self angle axis about :
  grows (Transform.rotated cos sin self angle axis about).
Proof. unfold Transform.rotated. destruct about; grows; auto with heap. Qed.

Lemma allocates_rotated cos sin self angle axis about :
  allocates (Transform.rotated cos sin self angle axis about).
Proof.
  unfold Transform.rotated. destruct about; allocates.
Qed.

Lemma grows_inv linalg_inv self : grows (Transform.inv linalg_inv self).
Proof. unfold Transform.inv. grows; auto with heap. Qed.

Lemma allocates_inv linalg_inv self :
  allocates (Transform.inv linalg_inv self).
Proof. unfold Transform.inv. allocates. Qed.

End TransformFacts.

(** ** Products of matrices, up to the sign of zeros *)

Module MatrixFacts.

Import Binary64 Binary64Facts Np Builders.
Open Scope nat_scope.

Ltac is_a_zero :=
  lazymatch goal with
  | |- is_zero (_ + _)%float = true => apply add_zero_zero; is_a_zero
  | |- is_zero (_ * _)%float = true =>
      apply mul_zero_finite; [reflexivity | assumption]
  | |- _ => reflexivity
  end.

Ltac drop_zeros :=
  lazymatch goal with
  | |- same_number (?a + ?b)%float ?x =>
      first
        [ apply same_number_trans with (y := a);
          [apply add_zero_r; is_a_zero | drop_zeros]
        | apply same_number_trans with (y := b);
          [apply add_zero_l; is_a_zero | drop_zeros] ]
  | |- same_number ?x ?x => apply same_number_refl
  end.

Ltac sixteen d :=
  do 16 (destruct d as [|? d]; [discriminate|]);
  destruct d; [|discriminate].

Lemma eye_matmul_data (d : list float) :
  length d = 16 -> Forall (fun x => is_finite x = true) d ->
  Forall2 same_number (dot_data 4 4 1 4 (data (eye 4)) d) d.
Proof.
  intros L F. sixteen d.
  repeat match goal with
         | H : Forall _ (_ :: _) |- _ => inversion H; clear H; subst
         end.
  cbv [dot_data sum_prod flat_map List.map seq fold_left item nth app
       Nat.mul Nat.add data eye Nat.eqb].
  rewrite !mul_1_l.
  repeat (apply Forall2_cons); try apply Forall2_nil; drop_zeros.
Qed.

Lemma item_same (a a' : list float) (i : nat) :
  Forall2 same_number a a' -> same_number (item a i) (item a' i).
Proof.
  intros F. revert i. unfold item.
  induction F as [|x y a a' Hxy F IH]; intros [|i]; cbn;
    try apply same_number_refl; [exact Hxy | apply IH].
Qed.

Lemma sum_prod_same (J L : nat) (a a' b b' : list float) (i k l : nat) :
  Forall2 same_number a a' -> Forall2 same_number b b' ->
  same_number (sum_prod J L a b i k l) (sum_prod J L a' b' i k l).
Proof.
  intros Fa Fb. unfold sum_prod.
  generalize (seq 0 J) as js. generalize 0%float as acc.
  assert (G : forall js acc acc', same_number acc acc' ->
    same_number
      (fold_left (fun acc j =>
         (acc + item a (i * J + j) * item b ((k * J + j) * L + l))%float)
         js acc)
      (fold_left (fun acc j =>
         (acc + item a' (i * J + j) * item b' ((k * J + j) * L + l))%float)
         js acc')).
  { induction js as [|j js IH]; intros acc acc' Hacc; cbn; [exact Hacc|].
    apply IH. apply add_same_number; [exact Hacc|].
    apply mul_same_number; now apply item_same. }
  intros acc js. apply G, same_number_refl.
Qed.

Lemma Forall2_flat_map {A B} (R : B -> B -> Prop) (f g : A -> list B) (l : list A) :
  (forall x, Forall2 R (f x) (g x)) ->
  Forall2 R (flat_map f l) (flat_map g l).
Proof.
  intros H. induction l as [|x l IH]; cbn; [constructor|].
  apply Forall2_app; [apply H | exact IH].
Qed.

Lemma Forall2_map_pointwise {A B} (R : B -> B -> Prop) (f g : A -> B) (l : list A) :
  (forall x, R (f x) (g x)) -> Forall2 R (List.map f l) (List.map g l).
Proof.
  intros H. induction l as [|x l IH]; cbn; constructor; [apply H | exact IH].
Qed.

Lemma dot_data_same (I J K L : nat) (a a' b b' : list float) :
  Forall2 same_number a a' -> Forall2 same_number b b' ->
  Forall2 same_number (dot_data I J K L a b) (dot_data I J K L a' b').
Proof.
  intros Fa Fb. unfold dot_data.
  apply Forall2_flat_map. intros i.
  apply Forall2_flat_map. intros k.
  apply Forall2_map_pointwise. intros l.
  now apply sum_prod_same.
Qed.

Lemma Forall2_same_refl (d : list float) : Forall2 same_number d d.
Proof. induction d; constructor; [apply same_number_refl | assumption]. Qed.

Lemma eye_dot_translation (x y z : float) :
  is_finite x = true -> is_finite y = true -> is_finite z = true ->
  dot_data 4 4 1 4 (data (eye 4)) (data (translation x y z))
  = data (translation (0 + x) (0 + y) (0 + z)).
Proof.
  intros Fx Fy Fz.
  assert (Zx : is_zero (0 * x) = true) by now apply mul_zero_finite.
  assert (Zy : is_zero (0 * y) = true) by now apply mul_zero_finite.
  assert (Zz : is_zero (0 * z) = true) by now apply mul_zero_finite.
  cbv [dot_data sum_prod flat_map List.map seq fold_left item nth app
       Nat.mul Nat.add data eye Nat.eqb translation].
  rewrite !mul_1_l.
  set (zx := (0 * x)%float) in *. set (zy := (0 * y)%float) in *.
  set (zz := (0 * z)%float) in *. clearbody zx zy zz.
  vm_compute.
  rewrite (add_zero_r_exact 1 zx Zx eq_refl), (add_zero_r_exact 1 zy Zy eq_refl),
    (add_zero_r_exact 1 zz Zz eq_refl).
  rewrite (add_pos_zero_l zx Zx), (add_pos_zero_l zy Zy), (add_pos_zero_l zz Zz).
  reflexivity.
Qed.

Lemma origin_dot_translation (a b c : float) :
  dot_data 1 4 1 4 [0; 0; 0; 1]%float (data (translation a b c))
  = [0 + a; 0 + b; 0 + c; 1]%float.
Proof.
  cbv [dot_data sum_prod flat_map List.map seq fold_left item nth app
       Nat.mul Nat.add data translation].
  rewrite !mul_1_l. vm_compute. reflexivity.
Qed.

(** Arrays with the same finite entries compare equal. *)
Lemma same_entries_array_equal (a b : ndarray) :
  same_entries a b -> all_finite b -> array_equal a b = true.
Proof.
  intros [S F] Fb. unfold array_equal, shape_eqb. rewrite S.
  destruct (list_eq_dec Nat.eq_dec (shape b) (shape b)); [|contradiction].
  cbn [andb]. unfold all_finite in Fb. revert Fb.
  induction F as [|x y da db Hxy F IH]; intros Fb; [reflexivity|].
  inversion Fb as [|? ? Fy Fb']; subst.
  cbn [combine forallb fst snd]. rewrite IH by exact Fb'.
  rewrite same_number_eqb; [reflexivity | exact Hxy|].
  unfold is_finite in Fy. destruct (is_nan y); [discriminate|reflexivity].
Qed.

End MatrixFacts.

(** ** Transform: what the methods compute *)

Module TransformRuns.

Import Binary64 Binary64Facts Np Builders Heap MatrixFacts.
Open Scope nat_scope.
Open Scope heap_scope.

Lemma bind_ok {obj A B} (m : M obj A) (k : A -> M obj B) h h' a :
  m h = (h', Ok a) -> bind m k h = k a h'.
Proof. intros E. unfold bind. now rewrite E. Qed.

Lemma nth_error_last {A} (h : list A) (a : A) (rest : list A) :
  nth_error (h ++ a :: rest) (length h) = Some a.
Proof. rewrite nth_error_app2, Nat.sub_diag by lia. reflexivity. Qed.

Lemma nth_error_last_1 {A} (h : list A) (a b : A) (rest : list A) :
  nth_error (h ++ a :: b :: rest) (length h + 1) = Some b.
Proof.
  rewrite nth_error_app2 by lia.
  replace (length h + 1 - length h) with 1 by lia. reflexivity.
Qed.

Lemma init_ok (a : ndarray) (h : heap Transform.instance) :
  shape a = [4; 4] ->
  Transform.init (Some a) h
  = (h ++ [{| Transform.matrix := a |}], Ok (length h)).
Proof. intros E. unfold Transform.init. rewrite E. reflexivity. Qed.

Lemma init_refused (a : ndarray) (h : heap Transform.instance) :
  shape a <> [4; 4] -> Transform.init (Some a) h = (h, Raise ValueError).
Proof.
  intros E. unfold Transform.init, shape_eqb.
  destruct (list_eq_dec Nat.eq_dec (shape a) [4; 4]); [contradiction|].
  reflexivity.
Qed.

Lemma get_matrix_ok (l : loc) (h : heap Transform.instance) t :
  nth_error h l = Some t -> Transform.get_matrix l h = (h, Ok (Transform.matrix t)).
Proof.
  intros E. unfold Transform.get_matrix, bind, read. rewrite E. reflexivity.
Qed.

Lemma matrix_of_transform (l : loc) (h : heap Transform.instance) t :
  nth_error h l = Some t ->
  Transform.matrix_of (Transform.a_transform l) h = (h, Ok (Transform.matrix t)).
Proof. apply get_matrix_ok. Qed.

(** The product of two 4x4 matrices, entry by entry. *)
Lemma dot_4x4 (a b : ndarray) :
  shape a = [4; 4] -> shape b = [4; 4] ->
  Np.dot a b = Ok (mk_array [4; 4] (dot_data 4 4 1 4 (data a) (data b))).
Proof. intros Ea Eb. unfold Np.dot. rewrite Ea, Eb. reflexivity. Qed.

Lemma matmul_4x4 (a b : ndarray) :
  shape a = [4; 4] -> shape b = [4; 4] ->
  Np.matmul a b = Ok (mk_array [4; 4] (dot_data 4 4 1 4 (data a) (data b))).
Proof. intros Ea Eb. unfold Np.matmul. rewrite Ea, Eb. reflexivity. Qed.

Lemma dot_run self other (h : heap Transform.instance) t b p :
  nth_error h self = Some t ->
  Transform.matrix_of other h = (h, Ok b) ->
  Np.dot (Transform.matrix t) b = Ok p ->
  shape p = [4; 4] ->
  Transform.dot self other h
  = (h ++ [{| Transform.matrix := p |}], Ok (length h)).
Proof.
  intros Es Eo Ep Sp. unfold Transform.dot.
  erewrite bind_ok by exact Eo.
  erewrite bind_ok by (apply get_matrix_ok; exact Es).
  unfold lift at 1. unfold bind at 1. rewrite Ep. now apply init_ok.
Qed.

Lemma matmul_run self other (h : heap Transform.instance) t b p :
  nth_error h self = Some t ->
  Transform.matrix_of other h = (h, Ok b) ->
  Np.matmul (Transform.matrix t) b = Ok p ->
  shape p = [4; 4] ->
  Transform.matmul self other h
  = (h ++ [{| Transform.matrix := p |}], Ok (length h)).
Proof.
  intros Es Eo Ep Sp. unfold Transform.matmul.
  erewrite bind_ok by exact Eo.
  erewrite bind_ok by (apply get_matrix_ok; exact Es).
  unfold lift at 1. unfold bind at 1. rewrite Ep. now apply init_ok.
Qed.

Lemma nth_error_weaken {A} (h new : list A) (l : nat) (o : A) :
  nth_error h l = Some o -> nth_error (h ++ new) l = Some o.
Proof.
  intros E. rewrite nth_error_app1; [exact E|].
  apply nth_error_Some. congruence.
Qed.

Lemma matmul_step (h : heap Transform.instance) (self other : loc) (A B : ndarray) :
  nth_error h self = Some {| Transform.matrix := A |} ->
  nth_error h other = Some {| Transform.matrix := B |} ->
  shape A = [4; 4] -> shape B = [4; 4] ->
  Transform.matmul self (Transform.a_transform other) h
  = (h ++ [{| Transform.matrix := product A B |}], Ok (length h)).
Proof.
  intros Es Eo SA SB.
  apply matmul_run with (t := {| Transform.matrix := A |}) (b := B).
  - exact Es.
  - apply matrix_of_transform with (t := {| Transform.matrix := B |}). exact Eo.
  - now apply matmul_4x4.
  - reflexivity.
Qed.

Lemma bind_lift_ok {obj A B} (r : result A) (k : A -> M obj B) h a :
  r = Ok a -> bind (lift r) k h = k a h.
Proof. intros ->. reflexivity. Qed.

Lemma as_vec4_position (a b c : float) :
  as_vec4 (vector [a; b; c]) position_default
  = Ok (mk_array [1; 4] [a; b; c; 1%float]).
Proof. reflexivity. Qed.

Lemma translated_run (h : heap Transform.instance) (self : loc)
    (M P : ndarray) (x y z : float) :
  nth_error h self = Some {| Transform.matrix := M |} ->
  Np.dot M (translation x y z) = Ok P ->
  shape P = [4; 4] ->
  Transform.translated self (vector [x; y; z]) h
  = (h ++ [{| Transform.matrix := P |}], Ok (length h)).
Proof.
  intros Es Ep Sp. unfold Transform.translated.
  rewrite (bind_lift_ok _ _ _ _ (as_vec4_position x y z)).
  rewrite (bind_lift_ok _ _ _ (mk_array [3] [x; y; z]) eq_refl).
  rewrite (bind_lift_ok _ _ _ [x; y; z] eq_refl).
  rewrite (bind_lift_ok _ _ _ (translation x y z) eq_refl).
  now apply dot_run with (t := {| Transform.matrix := M |})
                         (b := translation x y z).
Qed.

Lemma map_run (h : heap Transform.instance) (self : loc)
    (M : ndarray) (a b c : float) :
  nth_error h self = Some {| Transform.matrix := M |} ->
  shape M = [4; 4] ->
  Transform.map self (Transform.a_sequence (vector [a; b; c])) h
  = (h, Ok (vector (dot_data 1 4 1 4 [a; b; c; 1%float] (data M)))).
Proof.
  intros Es SM. unfold Transform.map, Transform._arg_to_vec4.
  rewrite (bind_lift_ok _ _ _ _ (as_vec4_position a b c)).
  erewrite bind_ok.
  2:{ erewrite bind_ok by (apply get_matrix_ok; exact Es).
      cbn [Transform.matrix]. unfold lift, Np.dot. rewrite SM. reflexivity. }
  reflexivity.
Qed.

End TransformRuns.

(** * The claims *)

Import Binary64 Binary64Facts Np Builders Heap HeapFacts.
Import MatrixFacts TransformFacts TransformRuns.
Open Scope nat_scope.
Open Scope heap_scope.

(** C9: [Transform()] is the identity transform, a new instance whose
    matrix is [np.eye(4)]; a matrix of any other shape than (4, 4) is
    refused with a ValueError and the heap is left as it was: no
    instance is created. *)
Theorem C9_init_identity_or_shape_error
    (h : heap Transform.instance) (a : ndarray) :
  Transform.init None h
  = (h ++ [{| Transform.matrix := eye 4 |}], Ok (length h))
  /\ (shape a <> [4; 4] ->
      Transform.init (Some a) h = (h, Raise ValueError)).
Proof.
  split.
  - reflexivity.
  - apply init_refused.
Qed.

(** A 3x3 and a 4x5 matrix are refused. *)
Lemma C9_witness :
  Transform.init
    (Some (mk_array [3; 3] [1; 2; 3; 4; 5; 6; 7; 8; 9]%float)) []
  = ([], Raise ValueError)
  /\ Transform.init (Some (mk_array [4; 5] (repeat 0%float 20))) []
     = ([], Raise ValueError).
Proof.
  split.
  - apply (proj2 (C9_init_identity_or_shape_error [] _)). cbn. discriminate.
  - apply (proj2 (C9_init_identity_or_shape_error [] _)). cbn. discriminate.
Defined.

(** C2: for 4x4 matrices [A] and [B], [Transform(A).dot(Transform(B))]
    returns a new Transform whose matrix is the matrix product [A @ B],
    sixteen sums of four products; [@] returns the same, and so do both
    when the right operand is the array [B] itself. *)
Theorem C2_dot_is_matrix_product
    (h : heap Transform.instance) (A B : ndarray) :
  shape A = [4; 4] -> shape B = [4; 4] ->
  let tA := {| Transform.matrix := A |} in
  let tB := {| Transform.matrix := B |} in
  let P := mk_array [4; 4] (dot_data 4 4 1 4 (data A) (data B)) in
  let tP := {| Transform.matrix := P |} in
  Np.matmul A B = Ok P
  /\ (a <- Transform.init (Some A) ;; b <- Transform.init (Some B) ;;
      Transform.dot a (Transform.a_transform b)) h
     = (h ++ [tA; tB; tP], Ok (length h + 2))
  /\ (a <- Transform.init (Some A) ;; b <- Transform.init (Some B) ;;
      Transform.matmul a (Transform.a_transform b)) h
     = (h ++ [tA; tB; tP], Ok (length h + 2))
  /\ (a <- Transform.init (Some A) ;;
      Transform.dot a (Transform.an_array B)) h
     = (h ++ [tA; tP], Ok (length h + 1))
  /\ (a <- Transform.init (Some A) ;;
      Transform.matmul a (Transform.an_array B)) h
     = (h ++ [tA; tP], Ok (length h + 1)).
Proof.
  intros SA SB tA tB P tP.
  split; [now apply matmul_4x4|].
  repeat split.
  - erewrite bind_ok by (apply init_ok; exact SA).
    erewrite bind_ok by (apply init_ok; exact SB).
    rewrite <- app_assoc. cbn [app].
    erewrite dot_run with (t := tA) (b := B) (p := P);
      [ rewrite <- app_assoc, length_app; reflexivity
      | apply nth_error_last
      | apply matrix_of_transform with (t := tB);
        rewrite length_app, Nat.add_comm; cbn [length Nat.add];
        replace (S (length h)) with (length h + 1) by lia;
        apply nth_error_last_1
      | apply dot_4x4; assumption
      | reflexivity ].
  - erewrite bind_ok by (apply init_ok; exact SA).
    erewrite bind_ok by (apply init_ok; exact SB).
    rewrite <- app_assoc. cbn [app].
    erewrite matmul_run with (t := tA) (b := B) (p := P);
      [ rewrite <- app_assoc, length_app; reflexivity
      | apply nth_error_last
      | apply matrix_of_transform with (t := tB);
        rewrite length_app, Nat.add_comm; cbn [length Nat.add];
        replace (S (length h)) with (length h + 1) by lia;
        apply nth_error_last_1
      | apply matmul_4x4; assumption
      | reflexivity ].
  - erewrite bind_ok by (apply init_ok; exact SA).
    erewrite dot_run with (t := tA) (b := B) (p := P);
      [ rewrite <- app_assoc, length_app; reflexivity
      | apply nth_error_last
      | reflexivity
      | apply dot_4x4; assumption
      | reflexivity ].
  - erewrite bind_ok by (apply init_ok; exact SA).
    erewrite matmul_run with (t := tA) (b := B) (p := P);
      [ rewrite <- app_assoc, length_app; reflexivity
      | apply nth_error_last
      | reflexivity
      | apply matmul_4x4; assumption
      | reflexivity ].
Qed.

(** [Transform(A).dot(Transform(B))] on two matrices of small integers. *)
Lemma C2_witness :
  (a <- Transform.init
          (Some (mk_array [4; 4]
             [1; 2; 3; 4; 5; 6; 7; 8; 9; 10; 11; 12; 13; 14; 15; 16]%float)) ;;
   b <- Transform.init
          (Some (mk_array [4; 4]
             [2; 0; 0; 0; 0; 2; 0; 0; 0; 0; 2; 0; 0; 0; 0; 2]%float)) ;;
   Transform.dot a (Transform.a_transform b)) []
  = ([ {| Transform.matrix := mk_array [4; 4]
            [1; 2; 3; 4; 5; 6; 7; 8; 9; 10; 11; 12; 13; 14; 15; 16]%float |};
       {| Transform.matrix := mk_array [4; 4]
            [2; 0; 0; 0; 0; 2; 0; 0; 0; 0; 2; 0; 0; 0; 0; 2]%float |};
       {| Transform.matrix := mk_array [4; 4]
            [2; 4; 6; 8; 10; 12; 14; 16;
             18; 20; 22; 24; 26; 28; 30; 32]%float |} ],
     Ok 2).
Proof.
  exact (proj1 (proj2
    (C2_dot_is_matrix_product []
       (mk_array [4; 4]
          [1; 2; 3; 4; 5; 6; 7; 8; 9; 10; 11; 12; 13; 14; 15; 16]%float)
       (mk_array [4; 4]
          [2; 0; 0; 0; 0; 2; 0; 0; 0; 0; 2; 0; 0; 0; 0; 2]%float)
       eq_refl eq_refl))).
Defined.

(** C4: a Transform is frozen, so assigning to its field raises an
    immutability error and leaves the heap as it was; and each of [dot],
    [@], [translated], [rotated], [scaled], [inv] and [T] leaves every
    existing instance, the receiver among them, with the matrix it had,
    and what it returns is an instance that did not exist before. *)
Theorem C4_transform_is_immutable
    (cos sin : float -> float) (linalg_inv : ndarray -> result ndarray)
    (h : heap Transform.instance) (self : loc) (value : ndarray)
    (other : Transform.operand) (pos : ndarray)
    (angle : float) (axis : list float) (about : option ndarray)
    (scale_factor : ndarray) (center : option ndarray) :
  Transform.setattr self Transform.f_matrix value h
  = (h, Raise ImmutabilityError)
  /\ returns_new_instance (Transform.dot self other) h
  /\ returns_new_instance (Transform.matmul self other) h
  /\ returns_new_instance (Transform.translated self pos) h
  /\ returns_new_instance (Transform.rotated cos sin self angle axis about) h
  /\ returns_new_instance (Transform.scaled self scale_factor center) h
  /\ returns_new_instance (Transform.inv linalg_inv self) h
  /\ returns_new_instance (Transform.T self) h.
Proof.
  split; [reflexivity|].
  repeat split; apply new_instance;
    auto using grows_dot, allocates_dot, grows_matmul, allocates_matmul,
      grows_translated, allocates_translated, grows_rotated,
      allocates_rotated, grows_scaled, allocates_scaled, grows_inv,
      allocates_inv, grows_T, allocates_T.
Qed.

(** On a heap holding the identity transform alone, at location 0, each
    of the seven methods returns the new location 1. *)
Lemma C4_witness :
  (returns_new_instance
     (Transform.dot 0 (Transform.a_transform 0))
     [{| Transform.matrix := eye 4 |}]
   /\ returns_new_instance (Transform.T 0) [{| Transform.matrix := eye 4 |}])
  /\ List.map (fun m => snd (m [{| Transform.matrix := eye 4 |}]))
       [Transform.dot 0 (Transform.a_transform 0);
        Transform.matmul 0 (Transform.a_transform 0);
        Transform.translated 0 (vector [1; 2; 3]%float);
        Transform.rotated (fun _ => 1%float) (fun _ => 0%float) 0 0%float
          [0; 0; 1]%float (Some (vector [1; 1]%float));
        Transform.scaled 0 (vector [2; 2]%float) (Some (vector [1]%float));
        Transform.inv (fun m => Ok m) 0;
        Transform.T 0]
     = [Ok 1; Ok 1; Ok 1; Ok 3; Ok 1; Ok 1; Ok 1].
Proof.
  pose proof (C4_transform_is_immutable
    (fun _ => 1%float) (fun _ => 0%float) (fun m => Ok m)
    [{| Transform.matrix := eye 4 |}] 0 (eye 4)
    (Transform.a_transform 0) (vector [1; 2; 3]%float)
    0%float [0; 0; 1]%float (Some (vector [1; 1]%float))
    (vector [2; 2]%float) (Some (vector [1]%float))) as H.
  split; [split|].
  - exact (proj1 (proj2 H)).
  - exact (proj2 (proj2 (proj2 (proj2 (proj2 (proj2 (proj2 H))))))).
  - vm_compute. reflexivity.
Defined.

(** The claim of C10 fails at an infinite angle: with the axis (0, 0, 0),
    of three elements, [rotate(inf, (0, 0, 0))] raises the ValueError of
    [math.cos], so the zero axis is not accepted whatever the angle; and
    with the axis (0, 0, 1) a ValueError is raised by an axis of exactly
    three elements. *)
Lemma C10_counterexample :
  length [0; 0; 0]%float = 3
  /\ rotate (fun _ => nan) (fun _ => nan) infinity [0; 0; 0]%float
     = Raise ValueError
  /\ rotate (fun _ => nan) (fun _ => nan) infinity [0; 0; 1]%float
     = Raise ValueError.
Proof. repeat split. Qed.

(** C10, amended: [rotate(angle, axis)] raises exactly when [axis] does
    not have three elements or the angle is infinite, and what it raises
    is a ValueError: the length error whenever [axis] does not have three
    elements, whatever the angle, and the domain error of [math.cos] when
    [axis] has three elements and the angle is [inf] or [-inf]. At an
    angle that is not infinite, [rotate] raises exactly when [axis] does
    not have three elements, and the axis (0, 0, 0) is accepted: its norm
    is 0, each coordinate becomes 0/0, and the nine entries of the
    rotation block of the matrix returned are [nan], not finite
    numbers. *)
Theorem C10_rotate_length_error_only
    (cos sin : float -> float) (angle : float) (axis : list float) :
  ((exists e, rotate cos sin angle axis = Raise e)
   <-> length axis <> 3 \/ is_infinity angle = true)
  /\ (forall e, rotate cos sin angle axis = Raise e -> e = ValueError)
  /\ (length axis <> 3 -> rotate cos sin angle axis = Raise ValueError)
  /\ (length axis = 3 -> is_infinity angle = true ->
      rotate cos sin angle axis = Raise ValueError)
  /\ (is_infinity angle = false ->
      (rotate cos sin angle axis = Raise ValueError <-> length axis <> 3)
      /\ ((exists e, rotate cos sin angle axis = Raise e)
          <-> length axis <> 3)
      /\ rotate cos sin angle [0; 0; 0]%float
         = Ok (mk_array [4; 4]
                 [nan; nan; nan; 0;
                  nan; nan; nan; 0;
                  nan; nan; nan; 0;
                  0;   0;   0;   1]%float))
  /\ is_finite nan = false.
Proof.
  assert (E : forall e, rotate cos sin angle axis = Raise e <->
                        e = ValueError
                        /\ (length axis <> 3 \/ is_infinity angle = true)).
  { intros e. unfold rotate, math_cos, math_sin.
    rewrite RoundingFacts.radians_infinite.
    destruct (Nat.eqb (length axis) 3) eqn:L; cbn [negb].
    - apply Nat.eqb_eq in L.
      destruct (is_infinity angle) eqn:I.
      + split.
        * intros H. injection H as <-. split; [reflexivity | now right].
        * intros [-> _]. reflexivity.
      + split; [discriminate|]. intros [_ [H|H]]; [lia | discriminate].
    - apply Nat.eqb_neq in L. split.
      + intros H. injection H as <-. split; [reflexivity | now left].
      + intros [-> _]. reflexivity. }
  split; [|split; [|split; [|split; [|split; [|reflexivity]]]]].
  - split.
    + intros [e H]. now apply E in H.
    + intros H. exists ValueError. now apply E.
  - intros e H. now apply E in H.
  - intros L. apply E. split; [reflexivity | now left].
  - intros _ I. apply E. split; [reflexivity | now right].
  - intros I. split; [|split].
    + split.
      * intros H. apply E in H. destruct H as [_ [H|H]]; [exact H|].
        rewrite I in H. discriminate.
      * intros L. apply E. split; [reflexivity | now left].
    + split.
      * intros [e H]. apply E in H. destruct H as [_ [H|H]]; [exact H|].
        rewrite I in H. discriminate.
      * intros L. exists ValueError. apply E.
        split; [reflexivity | now left].
    + unfold rotate, math_cos, math_sin. rewrite RoundingFacts.radians_infinite, I.
      cbn [length Nat.eqb negb].
      change (item [0; 0; 0]%float 0 / norm [0; 0; 0]%float)%float with nan.
      change (item [0; 0; 0]%float 1 / norm [0; 0; 0]%float)%float with nan.
      change (item [0; 0; 0]%float 2 / norm [0; 0; 0]%float)%float with nan.
      rewrite !mul_nan_r, !add_nan_l, !sub_nan_l.
      reflexivity.
Qed.

(** At the angle 0, where [cos] is 1 and [sin] is 0. *)
Lemma C10_witness :
  is_infinity 0 = false
  /\ rotate (fun _ => 1%float) (fun _ => 0%float) 0 [0; 0; 0]%float
     = Ok (mk_array [4; 4]
             [nan; nan; nan; 0;
              nan; nan; nan; 0;
              nan; nan; nan; 0;
              0;   0;   0;   1]%float).
Proof.
  split; [reflexivity|].
  exact (proj2 (proj2 (proj1 (proj2 (proj2 (proj2 (proj2
           (C10_rotate_length_error_only
              (fun _ => 1%float) (fun _ => 0%float) 0 [0; 0; 0]%float)))))
           eq_refl))).
Defined.

(** [allclose] on arrays of [n] entries each: every pair of entries is
    close. *)
Lemma allclose_items (a b : ndarray) (n : nat) :
  length (data a) = n -> length (data b) = n ->
  (allclose a b = true <->
   forall i, i < n -> isclose (item (data a) i) (item (data b) i) = true).
Proof.
  unfold allclose, item. generalize (data a) (data b). clear a b.
  intros la. revert n.
  induction la as [|x la IH]; intros n lb Ha Hb.
  - cbn in Ha. subst n. cbn. split; [intros _ i Hi; lia | reflexivity].
  - destruct lb as [|y lb]; [cbn in *; congruence|].
    destruct n as [|n]; [discriminate|]. cbn in Ha, Hb.
    injection Ha as Ha. injection Hb as Hb.
    cbn [combine forallb fst snd]. rewrite andb_true_iff.
    rewrite (IH n lb Ha Hb). split.
    + intros [H0 H] [|i] Hi; [exact H0 | apply H; lia].
    + intros H. split; [apply (H 0); lia | intros i Hi; apply (H (S i)); lia].
Qed.

(** The claim of C5 fails on [nearly_identity]: it is not the identity,
    not even an array that compares equal to it, and [is_null] returns
    True. *)
Lemma C5_counterexample :
  nearly_identity <> eye 4
  /\ array_equal nearly_identity (eye 4) = false
  /\ (t <- Transform.init (Some nearly_identity) ;; Transform.is_null t) []
     = ([{| Transform.matrix := nearly_identity |}], Ok true).
Proof.
  split; [|split].
  - intros H. apply (f_equal (fun a => array_equal a (eye 4))) in H.
    vm_compute in H. discriminate.
  - vm_compute. reflexivity.
  - vm_compute. reflexivity.
Qed.

(** C5, amended: [Transform().is_null()] is True; for a 4x4 matrix [M],
    [Transform(M).is_null()] is True exactly when each of the sixteen
    entries of [M] is close to the entry of the identity, in the sense of
    [np.isclose] with its default tolerances: it is False only when an
    entry is out of tolerance. *)
Theorem C5_is_null_up_to_tolerance
    (h : heap Transform.instance) (M : ndarray) :
  shape M = [4; 4] -> wf M ->
  (t <- Transform.init None ;; Transform.is_null t) h
  = (h ++ [{| Transform.matrix := eye 4 |}], Ok true)
  /\ exists b,
       (t <- Transform.init (Some M) ;; Transform.is_null t) h
       = (h ++ [{| Transform.matrix := M |}], Ok b)
       /\ (b = true <->
           forall i, i < 16 ->
             isclose (item (data M) i) (item (data (eye 4)) i) = true).
Proof.
  intros SM WM. split.
  - erewrite bind_ok by reflexivity.
    unfold Transform.is_null.
    erewrite bind_ok by (apply get_matrix_ok; apply nth_error_last).
    reflexivity.
  - exists (allclose M (eye 4)). split.
    + erewrite bind_ok by (apply init_ok; exact SM).
      unfold Transform.is_null.
      erewrite bind_ok by (apply get_matrix_ok; apply nth_error_last).
      reflexivity.
    + apply allclose_items; [|reflexivity].
      unfold wf in WM. rewrite WM, SM. reflexivity.
Qed.

(** The characterisation at [2 * eye(4)]. *)
Lemma C5_witness :
  exists b,
    (t <- Transform.init (Some (mk_array [4; 4]
            [2; 0; 0; 0; 0; 2; 0; 0; 0; 0; 2; 0; 0; 0; 0; 2]%float)) ;;
     Transform.is_null t) []
    = ([{| Transform.matrix := mk_array [4; 4]
            [2; 0; 0; 0; 0; 2; 0; 0; 0; 0; 2; 0; 0; 0; 0; 2]%float |}], Ok b)
    /\ (b = true <->
        forall i, i < 16 ->
          isclose
            (item [2; 0; 0; 0; 0; 2; 0; 0; 0; 0; 2; 0; 0; 0; 0; 2]%float i)
            (item (data (eye 4)) i) = true).
Proof.
  exact (proj2 (C5_is_null_up_to_tolerance []
    (mk_array [4; 4] [2; 0; 0; 0; 0; 2; 0; 0; 0; 0; 2; 0; 0; 0; 0; 2]%float)
    eq_refl eq_refl)).
Defined.

(** ** Node *)

(** A field that passed validation reads back as the value stored. *)
Lemma get_store (f : Node.field) (v v' : Node.value) (n : Node.instance) :
  Node.validate f v = Ok v' -> Node.get f (Node.store f v' n) = v'.
Proof.
  destruct f, v; cbn; intros E; try discriminate;
    try (injection E as <-; reflexivity).
  destruct ((0 <=? x)%float && (x <=? 1)%float); [|discriminate].
  injection E as <-. reflexivity.
Qed.

Lemma store_keeps_backend (f : Node.field) (v : Node.value) (n : Node.instance) :
  Node._backend (Node.store f v n) = Node._backend n.
Proof. destruct f, v; reflexivity. Qed.

(** C3: assigning to [opacity] a float that is not in [0, 1] raises a
    validation error for the field and leaves the Node, its opacity
    included, and the backend untouched. *)
Theorem C3_opacity_out_of_range_is_refused
    (w : Node.world) (v : float) :
  ((0 <=? v)%float && (v <=? 1)%float) = false ->
  Node.setattr Node.f_opacity (Node.v_float v) w
  = (w, Raise (ValidationError "opacity")).
Proof.
  intros H. unfold Node.setattr, Node.validate. rewrite H. reflexivity.
Qed.

(** 1.5 and -0.1 (the float nearest to it) are refused by [Node()]. *)
Lemma C3_witness :
  Node.setattr Node.f_opacity (Node.v_float 1.5%float)
    {| Node.node := Node.default; Node.calls := [] |}
  = ({| Node.node := Node.default; Node.calls := [] |},
     Raise (ValidationError "opacity"))
  /\ Node.setattr Node.f_opacity (Node.v_float (-0x1.999999999999ap-4)%float)
       {| Node.node := Node.default; Node.calls := [] |}
     = ({| Node.node := Node.default; Node.calls := [] |},
        Raise (ValidationError "opacity")).
Proof.
  split.
  - apply C3_opacity_out_of_range_is_refused. reflexivity.
  - apply C3_opacity_out_of_range_is_refused. reflexivity.
Defined.

(** C1: when a value passes the validation of a field, assigning it to a
    Node without a backend stores it and calls nothing; assigning it to a
    Node bound to a backend stores it and makes exactly one call, of the
    setter named [_viz_set_] followed by the name of the field, with the
    value as its argument; what the backend answers is the outcome of the
    assignment. *)
Theorem C1_binding_dispatch
    (w : Node.world) (f : Node.field) (v v' : Node.value) :
  Node.validate f v = Ok v' ->
  Node.method_name (Node.setter_of f)
  = String.append "_viz_set_" (Node.field_name f)
  /\ Node.get f (Node.node (fst (Node.setattr f v w))) = v'
  /\ (Node._backend (Node.node w) = None ->
      Node.setattr f v w
      = ({| Node.node := Node.store f v' (Node.node w);
            Node.calls := Node.calls w |}, Ok tt))
  /\ (forall backend,
      Node._backend (Node.node w) = Some backend ->
      Node.setattr f v w
      = ({| Node.node := Node.store f v' (Node.node w);
            Node.calls := Node.calls w ++ [(Node.setter_of f, v')] |},
         backend (Node.setter_of f) v')).
Proof.
  intros V. split; [destruct f; reflexivity|].
  unfold Node.setattr. rewrite V, store_keeps_backend.
  split; [|split].
  - destruct (Node._backend (Node.node w)); cbn; now apply get_store with v.
  - intros ->. reflexivity.
  - intros backend ->. reflexivity.
Qed.

(** [Node()] unbound, assigned [visible = False]; then bound to a backend
    that accepts every call, assigned [order = 5]. *)
Lemma C1_witness :
  Node.setattr Node.f_visible (Node.v_bool false)
    {| Node.node := Node.default; Node.calls := [] |}
  = ({| Node.node :=
          Node.store Node.f_visible (Node.v_bool false) Node.default;
        Node.calls := [] |}, Ok tt)
  /\ Node.setattr Node.f_order (Node.v_int 5)
       (Node.attach (fun _ _ => Ok tt)
          {| Node.node := Node.default; Node.calls := [] |})
     = ({| Node.node :=
             Node.store Node.f_order (Node.v_int 5)
               (Node.node (Node.attach (fun _ _ => Ok tt)
                  {| Node.node := Node.default; Node.calls := [] |}));
           Node.calls := [(Node._viz_set_order, Node.v_int 5)] |}, Ok tt).
Proof.
  split.
  - exact (proj1 (proj2 (proj2
      (C1_binding_dispatch {| Node.node := Node.default; Node.calls := [] |}
         Node.f_visible (Node.v_bool false) (Node.v_bool false) eq_refl)))
      eq_refl).
  - exact (proj2 (proj2 (proj2
      (C1_binding_dispatch
         (Node.attach (fun _ _ => Ok tt)
            {| Node.node := Node.default; Node.calls := [] |})
         Node.f_order (Node.v_int 5) (Node.v_int 5) eq_refl)))
      (fun _ _ => Ok tt) eq_refl).
Defined.

(** The claim of C6 fails on [Transform(np.diag([inf, 1, 1, 1]))], the
    object at location 0 below: [chain(t)] returns another object, at
    location 3, and its matrix, [eye(4) @ t.matrix], has [nan] where the
    matrix of [t] has 0. With the identity transform at location 1,
    [chain(t, i, i)] and [(t @ i) @ i] differ too: entry (1, 1) is [nan]
    in the former and 1 in the latter. *)
Lemma C6_counterexample :
  Transform.matrix_at
    [{| Transform.matrix := infinite_scale |};
     {| Transform.matrix := eye 4 |}] 0
  = Some infinite_scale
  /\ snd (Transform.chain [0]
            [{| Transform.matrix := infinite_scale |};
             {| Transform.matrix := eye 4 |}])
     = Ok 3
  /\ Transform.matrix_at
       (fst (Transform.chain [0]
               [{| Transform.matrix := infinite_scale |};
                {| Transform.matrix := eye 4 |}])) 3
     = Some (mk_array [4; 4]
               [infinity; 0; 0; 0;
                nan; 1; 0; 0;
                nan; 0; 1; 0;
                nan; 0; 0; 1]%float)
  /\ array_equal
       (mk_array [4; 4]
          [infinity; 0; 0; 0;
           nan; 1; 0; 0;
           nan; 0; 1; 0;
           nan; 0; 0; 1]%float)
       infinite_scale
     = false
  /\ option_map (fun m => item (data m) 5)
       (Transform.matrix_at
          (fst (Transform.chain [0; 1; 1]
                  [{| Transform.matrix := infinite_scale |};
                   {| Transform.matrix := eye 4 |}])) 5)
     = Some nan
  /\ option_map (fun m => item (data m) 5)
       (Transform.matrix_at
          (fst ((a <- Transform.matmul 0 (Transform.a_transform 1) ;;
                 Transform.matmul a (Transform.a_transform 1))
                  [{| Transform.matrix := infinite_scale |};
                   {| Transform.matrix := eye 4 |}])) 3)
     = Some 1%float.
Proof. repeat split; vm_compute; reflexivity. Qed.

(** C6, amended: [chain()] returns the identity transform. For transforms
    [t1], [t2], [t3], the entries of the matrix of [t1] being finite,
    [chain(t1)] returns a new Transform whose matrix, [eye(4) @ t1.matrix],
    has the entries of the matrix of [t1] up to the sign of zeros, so
    that [np.array_equal] holds of the two, and
    [chain(t1, t2, t3)] returns a new Transform whose matrix has the
    entries of the matrix of [(t1 @ t2) @ t3] up to the sign of zeros. *)
Theorem C6_chain_reduces_from_identity
    (h : heap Transform.instance) (t1 t2 t3 : loc) (M1 M2 M3 : ndarray) :
  nth_error h t1 = Some {| Transform.matrix := M1 |} ->
  nth_error h t2 = Some {| Transform.matrix := M2 |} ->
  nth_error h t3 = Some {| Transform.matrix := M3 |} ->
  shape M1 = [4; 4] -> shape M2 = [4; 4] -> shape M3 = [4; 4] ->
  wf M1 -> all_finite M1 ->
  let I := {| Transform.matrix := eye 4 |} in
  let X := product (eye 4) M1 in
  Transform.chain [] h = (h ++ [I], Ok (length h))
  /\ Transform.chain [t1] h
     = (h ++ [I; {| Transform.matrix := X |}], Ok (length h + 1))
  /\ same_entries X M1
  /\ array_equal X M1 = true
  /\ Transform.chain [t1; t2; t3] h
     = (h ++ [I; {| Transform.matrix := X |};
              {| Transform.matrix := product X M2 |};
              {| Transform.matrix := product (product X M2) M3 |}],
        Ok (length h + 3))
  /\ (a <- Transform.matmul t1 (Transform.a_transform t2) ;;
      Transform.matmul a (Transform.a_transform t3)) h
     = (h ++ [{| Transform.matrix := product M1 M2 |};
              {| Transform.matrix := product (product M1 M2) M3 |}],
        Ok (length h + 1))
  /\ same_entries (product (product X M2) M3) (product (product M1 M2) M3).
Proof.
  intros E1 E2 E3 S1 S2 S3 W1 F1 I X.
  assert (HX : Forall2 same_number (data X) (data M1)).
  { apply eye_matmul_data; [|exact F1]. unfold wf in W1. now rewrite W1, S1. }
  assert (C0 : Transform.init None h = (h ++ [I], Ok (length h))) by reflexivity.
  assert (C1 : Transform.matmul (length h) (Transform.a_transform t1) (h ++ [I])
               = ((h ++ [I]) ++ [{| Transform.matrix := X |}], Ok (length (h ++ [I])))).
  { apply matmul_step; [apply nth_error_last | now apply nth_error_weaken
                        | reflexivity | exact S1]. }
  split; [|split; [|split; [|split; [|split; [|split]]]]].
  - unfold Transform.chain. erewrite bind_ok by exact C0. reflexivity.
  - unfold Transform.chain. erewrite bind_ok by exact C0.
    cbn [Transform.reduce]. erewrite bind_ok by exact C1.
    cbv [ret]. rewrite <- app_assoc, length_app. reflexivity.
  - split; [now rewrite S1 | exact HX].
  - apply same_entries_array_equal; [|exact F1].
    split; [now rewrite S1 | exact HX].
  - unfold Transform.chain. erewrite bind_ok by exact C0.
    cbn [Transform.reduce]. erewrite bind_ok by exact C1.
    erewrite bind_ok.
    2:{ apply matmul_step with (A := X) (B := M2);
          [apply nth_error_last | now do 2 apply nth_error_weaken
          | reflexivity | exact S2]. }
    erewrite bind_ok.
    2:{ apply matmul_step with (A := product X M2) (B := M3);
          [apply nth_error_last | now do 3 apply nth_error_weaken
          | reflexivity | exact S3]. }
    cbv [ret]. rewrite <- !app_assoc, !length_app. cbn [app length].
    reflexivity.
  - erewrite bind_ok.
    2:{ apply matmul_step with (A := M1) (B := M2); eassumption. }
    erewrite matmul_step with (A := product M1 M2) (B := M3);
      [ | apply nth_error_last | now apply nth_error_weaken
        | reflexivity | exact S3 ].
    rewrite <- !app_assoc, !length_app. reflexivity.
  - split; [reflexivity|]. cbn [product data].
    apply dot_data_same; [|apply Forall2_same_refl].
    apply dot_data_same; [exact HX | apply Forall2_same_refl].
Qed.

(** Three transforms with finite entries. *)
Lemma C6_witness :
  Transform.chain [0; 1; 2]
    [{| Transform.matrix := translation 1 2 3 |};
     {| Transform.matrix := nearly_identity |};
     {| Transform.matrix := infinite_scale |}]
  = ([{| Transform.matrix := translation 1 2 3 |};
      {| Transform.matrix := nearly_identity |};
      {| Transform.matrix := infinite_scale |};
      {| Transform.matrix := eye 4 |};
      {| Transform.matrix := product (eye 4) (translation 1 2 3) |};
      {| Transform.matrix :=
           product (product (eye 4) (translation 1 2 3)) nearly_identity |};
      {| Transform.matrix :=
           product
             (product (product (eye 4) (translation 1 2 3)) nearly_identity)
             infinite_scale |}],
     Ok 6)
  /\ same_entries
       (product
          (product (product (eye 4) (translation 1 2 3)) nearly_identity)
          infinite_scale)
       (product (product (translation 1 2 3) nearly_identity) infinite_scale).
Proof.
  assert (F : all_finite (translation 1 2 3)).
  { unfold all_finite. cbn [data translation].
    repeat (apply Forall_cons; [reflexivity|]). apply Forall_nil. }
  pose proof (C6_chain_reduces_from_identity
    [{| Transform.matrix := translation 1 2 3 |};
     {| Transform.matrix := nearly_identity |};
     {| Transform.matrix := infinite_scale |}]
    0 1 2 (translation 1 2 3) nearly_identity infinite_scale
    eq_refl eq_refl eq_refl eq_refl eq_refl eq_refl eq_refl F) as H.
  split.
  - exact (proj1 (proj2 (proj2 (proj2 (proj2 H))))).
  - exact (proj2 (proj2 (proj2 (proj2 (proj2 (proj2 H)))))).
Defined.

(** The claim of C8 fails on v = (1, 2, 3): mapping the origin returns the
    four homogeneous coordinates (1, 2, 3, 1), an array of shape (4,), not
    of the shape (3,) of v. And on v = (inf, 2, 3) the first coordinate
    returned is [nan]. *)
Lemma C8_counterexample :
  snd ((t <- Transform.init None ;;
        t' <- Transform.translated t (vector [1; 2; 3]%float) ;;
        Transform.map t' (Transform.a_sequence (vector [0; 0; 0]%float))) [])
  = Ok (mk_array [4] [1; 2; 3; 1]%float)
  /\ shape (mk_array [4] [1; 2; 3; 1]%float) <> shape (vector [1; 2; 3]%float)
  /\ snd ((t <- Transform.init None ;;
           t' <- Transform.translated t (vector [infinity; 2; 3]%float) ;;
           Transform.map t' (Transform.a_sequence (vector [0; 0; 0]%float)))
            [])
     = Ok (mk_array [4] [nan; 2; 3; 1]%float).
Proof.
  split; [|split].
  - vm_compute. reflexivity.
  - cbn. discriminate.
  - vm_compute. reflexivity.
Qed.

(** C8, amended: for finite x, y, z, [Transform().translated((x, y, z))]
    is a new Transform whose matrix is the translation by (x, y, z), and
    mapping (0, 0, 0) through it returns the array of shape (4,) of the
    homogeneous coordinates (x, y, z, 1), each up to the sign of a
    zero: [np.array_equal] holds of it and (x, y, z, 1). *)
Theorem C8_translated_maps_origin
    (h : heap Transform.instance) (x y z : float) :
  is_finite x = true -> is_finite y = true -> is_finite z = true ->
  exists (T r : ndarray),
    (t <- Transform.init None ;;
     t' <- Transform.translated t (vector [x; y; z]) ;;
     Transform.map t' (Transform.a_sequence (vector [0; 0; 0]%float))) h
    = (h ++ [{| Transform.matrix := eye 4 |}; {| Transform.matrix := T |}],
       Ok r)
    /\ same_entries T (translation x y z)
    /\ same_entries r (vector [x; y; z; 1%float])
    /\ array_equal r (vector [x; y; z; 1%float]) = true.
Proof.
  intros Fx Fy Fz.
  exists (translation (0 + x) (0 + y) (0 + z)).
  exists (vector [0 + (0 + x); 0 + (0 + y); 0 + (0 + z); 1]%float).
  assert (Z : forall a, same_number (0 + a)%float a).
  { intros a. now apply add_zero_l. }
  assert (R : same_entries
                (vector [0 + (0 + x); 0 + (0 + y); 0 + (0 + z); 1]%float)
                (vector [x; y; z; 1%float])).
  { split; [reflexivity|]. cbn [data vector].
    repeat (apply Forall2_cons); try apply Forall2_nil;
      try apply same_number_refl;
      (eapply same_number_trans; [apply Z | apply Z]). }
  split; [|split; [|split]].
  - erewrite bind_ok by reflexivity.
    erewrite bind_ok.
    2:{ apply translated_run with (M := eye 4)
          (P := translation (0 + x) (0 + y) (0 + z)).
        - apply nth_error_last.
        - rewrite dot_4x4 by reflexivity.
          now rewrite eye_dot_translation.
        - reflexivity. }
    erewrite map_run with (M := translation (0 + x) (0 + y) (0 + z)).
    + rewrite origin_dot_translation, <- app_assoc. reflexivity.
    + rewrite length_app, <- app_assoc. apply nth_error_last_1.
    + reflexivity.
  - split; [reflexivity|]. cbn [data translation].
    repeat (apply Forall2_cons); try apply Forall2_nil;
      try apply same_number_refl; apply Z.
  - exact R.
  - apply same_entries_array_equal; [exact R|].
    unfold all_finite. cbn [data vector].
    repeat (apply Forall_cons; [assumption || reflexivity|]).
    apply Forall_nil.
Qed.

(** v = (1.5, 2, 3) *)
Lemma C8_witness :
  exists (T r : ndarray),
    (t <- Transform.init None ;;
     t' <- Transform.translated t (vector [1.5; 2; 3]%float) ;;
     Transform.map t' (Transform.a_sequence (vector [0; 0; 0]%float))) []
    = ([{| Transform.matrix := eye 4 |}; {| Transform.matrix := T |}], Ok r)
    /\ same_entries T (translation 1.5 2 3)
    /\ same_entries r (vector [1.5; 2; 3; 1]%float)
    /\ array_equal r (vector [1.5; 2; 3; 1]%float) = true.
Proof.
  exact (C8_translated_maps_origin [] 1.5 2 3 eq_refl eq_refl eq_refl).
Defined.

(** * Further properties *)

(** ** binary64: multiplication commutes *)

Module Binary64Mul.

Import Binary64 Binary64Facts.
Open Scope float_scope.

Lemma mul_comm (x y : float) : x * y = y * x.
Proof.
  apply Prim2SF_inj. rewrite !mul_spec. unfold SF64mul, SFmul.
  destruct (Prim2SF x) as [s|s| |s m e], (Prim2SF y) as [s'|s'| |s' m' e'];
    try reflexivity; try (rewrite (xorb_comm s s'); reflexivity).
  rewrite (xorb_comm s s'), (Pos.mul_comm m m'), (Z.add_comm e e').
  reflexivity.
Qed.

Lemma mul_1_r (x : float) : x * 1 = x.
Proof. rewrite mul_comm. apply mul_1_l. Qed.

Lemma mul_finite_zero (x z : float) :
  is_finite x = true -> is_zero z = true -> is_zero (x * z) = true.
Proof. intros Fx Zz. rewrite mul_comm. now apply mul_zero_finite. Qed.

End Binary64Mul.

(** ** Every instance holds a 4x4 matrix *)

Module Invariant.

Import Np Builders Heap HeapFacts TransformFacts.
Open Scope nat_scope.
Open Scope heap_scope.

Section Keeps.

Variable obj : Type.
Variable P : heap obj -> Prop.

Lemma keeps_ret {A} (a : A) : keeps P (@ret obj A a).
Proof. intros h H. exact H. Qed.

Lemma keeps_raise {A} (e : exn) : keeps P (@raise obj A e).
Proof. intros h H. exact H. Qed.

Lemma keeps_lift {A} (r : result A) : keeps P (@lift obj A r).
Proof. intros h H. exact H. Qed.

Lemma keeps_read (l : loc) : keeps P (@read obj l).
Proof. intros h H. unfold read. destruct (nth_error h l); exact H. Qed.

Lemma keeps_bind {A B} (m : M obj A) (k : A -> M obj B) :
  keeps P m -> (forall a, keeps P (k a)) -> keeps P (bind m k).
Proof.
  intros Hm Hk h H. unfold bind. specialize (Hm h H).
  destruct (m h) as [h1 [a|e]]; cbn in Hm; [apply Hk; exact Hm | exact Hm].
Qed.

End Keeps.

Lemma keeps_init (matrix : option ndarray) :
  keeps Transform.all_4x4 (Transform.init matrix).
Proof.
  intros h H. unfold Transform.init.
  destruct (shape_eqb _ _) eqn:E; cbn [negb]; [|exact H].
  cbn. apply Forall_app. split; [exact H|].
  constructor; [|constructor]. cbn.
  unfold shape_eqb in E.
  destruct (list_eq_dec Nat.eq_dec _ _) as [S|]; [exact S | discriminate].
Qed.

Ltac keeps :=
  repeat first
    [ apply keeps_init
    | apply keeps_ret | apply keeps_raise | apply keeps_lift | apply keeps_read
    | apply keeps_bind; [|intros ?] ].

Lemma keeps_get_matrix self :
  keeps Transform.all_4x4 (Transform.get_matrix self).
Proof. unfold Transform.get_matrix. keeps. Qed.

Lemma keeps_matrix_of other :
  keeps Transform.all_4x4 (Transform.matrix_of other).
Proof. destruct other; cbn; [apply keeps_get_matrix | keeps]. Qed.

Lemma keeps_dot self other : keeps Transform.all_4x4 (Transform.dot self other).
Proof.
  unfold Transform.dot.
  apply keeps_bind; [apply keeps_matrix_of | intros ?].
  apply keeps_bind; [apply keeps_get_matrix | intros ?]. keeps.
Qed.

Lemma keeps_matmul self other :
  keeps Transform.all_4x4 (Transform.matmul self other).
Proof.
  unfold Transform.matmul.
  apply keeps_bind; [apply keeps_matrix_of | intros ?].
  apply keeps_bind; [apply keeps_get_matrix | intros ?]. keeps.
Qed.

Lemma keeps_T self : keeps Transform.all_4x4 (Transform.T self).
Proof.
  unfold Transform.T. apply keeps_bind; [apply keeps_get_matrix | intros ?].
  keeps.
Qed.

Lemma keeps_inv linalg_inv self :
  keeps Transform.all_4x4 (Transform.inv linalg_inv self).
Proof.
  unfold Transform.inv. apply keeps_bind; [apply keeps_get_matrix | intros ?].
  keeps.
Qed.

Lemma keeps_translated self pos :
  keeps Transform.all_4x4 (Transform.translated self pos).
Proof.
  unfold Transform.translated.
  do 4 (apply keeps_bind; [apply keeps_lift | intros ?]). apply keeps_dot.
Qed.

Lemma keeps_scaled self scale_factor center :
  keeps Transform.all_4x4 (Transform.scaled self scale_factor center).
Proof.
  unfold Transform.scaled.
  do 4 (apply keeps_bind; [apply keeps_lift | intros ?]).
  destruct center.
  - do 7 (apply keeps_bind; [apply keeps_lift | intros ?]). apply keeps_dot.
  - apply keeps_dot.
Qed.

Lemma keeps_rotated cos sin self angle axis about :
  keeps Transform.all_4x4 (Transform.rotated cos sin self angle axis about).
Proof.
  unfold Transform.rotated. destruct about.
  - do 2 (apply keeps_bind; [apply keeps_lift | intros ?]).
    apply keeps_bind; [apply keeps_translated | intros ?].
    apply keeps_bind; [apply keeps_lift | intros ?].
    apply keeps_bind; [apply keeps_dot | intros ?].
    apply keeps_translated.
  - apply keeps_bind; [apply keeps_lift | intros ?]. apply keeps_dot.
Qed.

Lemma keeps_reduce function sequence initial :
  (forall a b, keeps Transform.all_4x4 (function a b)) ->
  keeps Transform.all_4x4 (Transform.reduce function sequence initial).
Proof.
  intros Hf. revert initial.
  induction sequence as [|b rest IH]; intros initial; cbn.
  - apply keeps_ret.
  - apply keeps_bind; [apply Hf | intros a; apply IH].
Qed.

Lemma keeps_chain transforms :
  keeps Transform.all_4x4 (Transform.chain transforms).
Proof.
  unfold Transform.chain. apply keeps_bind; [apply keeps_init | intros seed].
  apply keeps_reduce. intros a b. apply keeps_matmul.
Qed.

Lemma keeps_validate v : keeps Transform.all_4x4 (Transform.validate v).
Proof. destruct v; unfold Transform.validate; keeps. Qed.

End Invariant.

(** ** Transposition *)

Module TransposeFacts.

Import Binary64 Binary64Facts Binary64Mul Np MatrixFacts.
Open Scope nat_scope.

(** Transposing a 4x4 matrix twice gives it back. *)
Lemma transpose_transpose_4x4 (a : ndarray) :
  shape a = [4; 4] -> wf a -> transpose (transpose a) = a.
Proof.
  destruct a as [s d]. unfold wf. cbn [shape data]. intros -> L.
  cbn in L. sixteen d. reflexivity.
Qed.

Lemma shape_transpose_4x4 (a : ndarray) :
  shape a = [4; 4] -> shape (transpose a) = [4; 4].
Proof. intros E. unfold transpose. cbn [shape]. now rewrite E. Qed.

(** The transpose of a product is the product of the transposes, in the
    other order: entry by entry the same sums of the same products. *)
Lemma transpose_product (a b : ndarray) :
  shape a = [4; 4] -> wf a -> shape b = [4; 4] -> wf b ->
  transpose (product a b) = product (transpose b) (transpose a).
Proof.
  destruct a as [sa da], b as [sb db]. unfold wf. cbn [shape data].
  intros -> La -> Lb. cbn in La, Lb. sixteen da. sixteen db.
  unfold product, transpose. cbn [shape data rev app]. f_equal.
  cbv [dot_data sum_prod flat_map List.map seq fold_left item nth app
       Nat.mul Nat.add transpose_data chunks firstn skipn size_of fold_right].
  repeat (f_equal; try apply mul_comm).
Qed.

End TransposeFacts.

(** ** Further runs *)

Module MoreRuns.

Import Binary64 Binary64Facts Binary64Mul Np Builders Heap HeapFacts.
Import MatrixFacts TransformFacts TransformRuns TransposeFacts.
Open Scope nat_scope.
Open Scope heap_scope.

Lemma T_run (h : heap Transform.instance) (self : loc) (A : ndarray) :
  nth_error h self = Some {| Transform.matrix := A |} ->
  shape A = [4; 4] ->
  Transform.T self h
  = (h ++ [{| Transform.matrix := transpose A |}], Ok (length h)).
Proof.
  intros Es SA. unfold Transform.T.
  erewrite bind_ok by (apply get_matrix_ok; exact Es).
  apply init_ok. now apply shape_transpose_4x4.
Qed.

(** An instance of a heap of 4x4 matrices. *)
Lemma all_4x4_lookup (h : heap Transform.instance) (l : loc) :
  Transform.all_4x4 h -> l < length h ->
  exists A, nth_error h l = Some {| Transform.matrix := A |}
            /\ shape A = [4; 4].
Proof.
  intros H L. apply nth_error_Some in L.
  destruct (nth_error h l) as [[A]|] eqn:E; [|contradiction].
  exists A. split; [reflexivity|].
  unfold Transform.all_4x4 in H. rewrite Forall_forall in H.
  apply (H {| Transform.matrix := A |}). eapply nth_error_In. exact E.
Qed.

End MoreRuns.

Import Binary64Mul Invariant TransposeFacts MoreRuns.

(** X1: every method that builds Transforms keeps the heap one of 4x4
    matrices, whether it returns or raises: [Transform(...)],
    [validate], [dot], [@], [T], [inv], [translated], [rotated],
    [scaled] and [chain]. *)
Theorem X1_every_instance_stays_4x4
    (cos sin : float -> float) (linalg_inv : ndarray -> result ndarray)
    (h : heap Transform.instance) (self : loc)
    (matrix : option ndarray) (v : Transform.candidate)
    (other : Transform.operand) (pos : ndarray)
    (angle : float) (axis : list float) (about : option ndarray)
    (scale_factor : ndarray) (center : option ndarray)
    (transforms : list loc) :
  Transform.all_4x4 h ->
  Transform.all_4x4 (fst (Transform.init matrix h))
  /\ Transform.all_4x4 (fst (Transform.validate v h))
  /\ Transform.all_4x4 (fst (Transform.dot self other h))
  /\ Transform.all_4x4 (fst (Transform.matmul self other h))
  /\ Transform.all_4x4 (fst (Transform.T self h))
  /\ Transform.all_4x4 (fst (Transform.inv linalg_inv self h))
  /\ Transform.all_4x4 (fst (Transform.translated self pos h))
  /\ Transform.all_4x4
       (fst (Transform.rotated cos sin self angle axis about h))
  /\ Transform.all_4x4 (fst (Transform.scaled self scale_factor center h))
  /\ Transform.all_4x4 (fst (Transform.chain transforms h)).
Proof.
  intros H. repeat split.
  - now apply keeps_init.
  - now apply keeps_validate.
  - now apply keeps_dot.
  - now apply keeps_matmul.
  - now apply keeps_T.
  - now apply keeps_inv.
  - now apply keeps_translated.
  - now apply keeps_rotated.
  - now apply keeps_scaled.
  - now apply keeps_chain.
Qed.

(** A linear-algebra routine that returns a 2x2 array cannot make [inv]
    store it. *)
Lemma X1_witness :
  Transform.all_4x4
    (fst (Transform.inv (fun _ => Ok (eye 2)) 0
            [{| Transform.matrix := eye 4 |}]))
  /\ Transform.all_4x4
       (fst (Transform.chain [0; 0] [{| Transform.matrix := eye 4 |}])).
Proof.
  assert (H : Transform.all_4x4 [{| Transform.matrix := eye 4 |}]).
  { constructor; [reflexivity | constructor]. }
  pose proof (X1_every_instance_stays_4x4
    (fun x => x) (fun x => x) (fun _ => Ok (eye 2))
    [{| Transform.matrix := eye 4 |}] 0 None Transform.c_none
    (Transform.a_transform 0) (eye 4) 0%float [] None (eye 4) None [0; 0] H)
    as X.
  split.
  - exact (proj1 (proj2 (proj2 (proj2 (proj2 (proj2 X)))))).
  - exact (proj2 (proj2 (proj2 (proj2 (proj2 (proj2 (proj2 (proj2 (proj2 X))))))))).
Defined.

(** X2: on a well-formed 4x4 matrix, [t.T.T] is a new Transform holding the
    matrix of [t] itself, entry for entry; the two transposes are its
    only allocations. *)
Theorem X2_transpose_twice
    (h : heap Transform.instance) (self : loc) (A : ndarray) :
  nth_error h self = Some {| Transform.matrix := A |} ->
  shape A = [4; 4] -> wf A ->
  (t <- Transform.T self ;; Transform.T t) h
  = (h ++ [{| Transform.matrix := transpose A |};
           {| Transform.matrix := A |}],
     Ok (length h + 1)).
Proof.
  intros Es SA WA.
  erewrite bind_ok by (now apply T_run with (A := A)).
  erewrite T_run with (A := transpose A);
    [ | apply nth_error_last | now apply shape_transpose_4x4 ].
  rewrite transpose_transpose_4x4 by assumption.
  rewrite <- app_assoc, length_app. reflexivity.
Qed.

Lemma X2_witness :
  (t <- Transform.T 0 ;; Transform.T t)
    [{| Transform.matrix := translation 1 2 3 |}]
  = ([{| Transform.matrix := translation 1 2 3 |};
      {| Transform.matrix := transpose (translation 1 2 3) |};
      {| Transform.matrix := translation 1 2 3 |}],
     Ok 2).
Proof.
  exact (X2_transpose_twice [{| Transform.matrix := translation 1 2 3 |}]
           0 (translation 1 2 3) eq_refl eq_refl eq_refl).
Defined.

(** X3: transposition reverses composition exactly: for well-formed 4x4
    matrices, [(t1 @ t2).T] and [t2.T @ t1.T] return Transforms holding
    the same matrix, float for float. *)
Theorem X3_transpose_reverses_matmul
    (h : heap Transform.instance) (t1 t2 : loc) (A B : ndarray) :
  nth_error h t1 = Some {| Transform.matrix := A |} ->
  nth_error h t2 = Some {| Transform.matrix := B |} ->
  shape A = [4; 4] -> wf A -> shape B = [4; 4] -> wf B ->
  (p <- Transform.matmul t1 (Transform.a_transform t2) ;; Transform.T p) h
  = (h ++ [{| Transform.matrix := product A B |};
           {| Transform.matrix := transpose (product A B) |}],
     Ok (length h + 1))
  /\ (a <- Transform.T t2 ;; b <- Transform.T t1 ;;
      Transform.matmul a (Transform.a_transform b)) h
     = (h ++ [{| Transform.matrix := transpose B |};
              {| Transform.matrix := transpose A |};
              {| Transform.matrix := transpose (product A B) |}],
        Ok (length h + 2)).
Proof.
  intros E1 E2 SA WA SB WB. split.
  - erewrite bind_ok by (now apply matmul_step with (A := A) (B := B)).
    erewrite T_run with (A := product A B);
      [ | apply nth_error_last | reflexivity ].
    rewrite <- app_assoc, length_app. reflexivity.
  - erewrite bind_ok by (now apply T_run with (A := B)).
    erewrite bind_ok.
    2:{ apply T_run with (A := A); [now apply nth_error_weaken | exact SA]. }
    erewrite matmul_step with (A := transpose B) (B := transpose A);
      [ | apply nth_error_weaken, nth_error_last
        | apply nth_error_last
        | now apply shape_transpose_4x4
        | now apply shape_transpose_4x4 ].
    rewrite transpose_product by assumption.
    rewrite <- !app_assoc, !length_app. reflexivity.
Qed.

Lemma X3_witness :
  (a <- Transform.T 1 ;; b <- Transform.T 0 ;;
   Transform.matmul a (Transform.a_transform b))
    [{| Transform.matrix := translation 1 2 3 |};
     {| Transform.matrix := nearly_identity |}]
  = ([{| Transform.matrix := translation 1 2 3 |};
      {| Transform.matrix := nearly_identity |};
      {| Transform.matrix := transpose nearly_identity |};
      {| Transform.matrix := transpose (translation 1 2 3) |};
      {| Transform.matrix :=
           transpose (product (translation 1 2 3) nearly_identity) |}],
     Ok 4).
Proof.
  exact (proj2 (X3_transpose_reverses_matmul
    [{| Transform.matrix := translation 1 2 3 |};
     {| Transform.matrix := nearly_identity |}]
    0 1 (translation 1 2 3) nearly_identity
    eq_refl eq_refl eq_refl eq_refl eq_refl eq_refl)).
Defined.

(** ** [dot] and [@] on array operands *)

Module OperandFacts.

Import Np Builders Heap HeapFacts TransformFacts TransformRuns.
Open Scope nat_scope.
Open Scope heap_scope.

Lemma broadcast_length (sa sb s : list nat) :
  broadcast sa sb = Some s -> length s = Nat.min (length sa) (length sb).
Proof.
  revert sb s. induction sa as [|x sa IH]; intros [|y sb] s; cbn;
    try (intros E; injection E as <-; reflexivity).
  destruct (broadcast sa sb) as [s'|] eqn:E; [|discriminate].
  specialize (IH sb s' E).
  destruct (Nat.eqb x y); [|destruct (Nat.eqb x 1); [|destruct (Nat.eqb y 1)]];
    intros E'; try discriminate; injection E' as <-; cbn; now rewrite IH.
Qed.

Lemma length_pad_left (n : nat) (s : list nat) :
  length s <= n -> length (pad_left n s) = n.
Proof.
  intros L. unfold pad_left. rewrite length_app, repeat_length. lia.
Qed.

Lemma length_removelast (l : list nat) :
  length (removelast l) = pred (length l).
Proof.
  rewrite removelast_firstn_len, length_firstn. lia.
Qed.

(** The shape of [a @ b], [a] a 4x4 matrix and [b] not one, is never
    (4, 4). *)
Lemma matmul_4x4_other (a b p : ndarray) :
  shape a = [4; 4] -> shape b <> [4; 4] ->
  Np.matmul a b = Ok p -> shape p <> [4; 4].
Proof.
  intros Sa Sb. unfold Np.matmul. rewrite Sa.
  destruct (shape b) as [|n [|m rest]] eqn:E.
  - cbn. discriminate.
  - cbn -[Nat.eqb]. destruct (Nat.eqb 4 n); [|discriminate].
    intros H. injection H as <-. cbn. discriminate.
  - cbn -[removelast last Nat.eqb broadcast pad_left Nat.max length].
    destruct (Nat.eqb _ _) eqn:K; [|discriminate].
    destruct (broadcast _ _) as [batch|] eqn:Bc; [|discriminate].
    intros H. injection H as <-. cbn [shape]. intros H.
    pose proof (f_equal (@length nat) H) as HL.
    rewrite !length_app in HL. cbn [length] in HL.
    apply broadcast_length in Bc.
    rewrite !length_pad_left in Bc by lia. rewrite Nat.min_id in Bc.
    rewrite !length_removelast in Bc. cbn [length pred] in Bc.
    assert (rest = []) by (destruct rest; [reflexivity | cbn in Bc; lia]).
    subst rest. destruct batch; [|cbn in HL; lia].
    cbn -[Nat.eqb] in K, H. apply Nat.eqb_eq in K. injection H as Hm.
    subst n m. now apply Sb.
Qed.

(** The shape of [np.dot(a, b)], [a] a 4x4 matrix and [b] neither one nor
    a scalar, is never (4, 4). *)
Lemma dot_4x4_other (a b p : ndarray) :
  shape a = [4; 4] -> shape b <> [] -> shape b <> [4; 4] ->
  Np.dot a b = Ok p -> shape p <> [4; 4].
Proof.
  intros Sa Sn Sb. unfold Np.dot. rewrite Sa.
  destruct (shape b) as [|n [|m rest]] eqn:E; [contradiction| |].
  - cbn -[Nat.eqb]. destruct (Nat.eqb 4 n); [|discriminate].
    intros H. injection H as <-. cbn. discriminate.
  - cbn -[removelast last Nat.eqb length].
    destruct (Nat.eqb _ _) eqn:K; [|discriminate].
    intros H. injection H as <-. cbn [shape]. intros H.
    destruct rest as [|r rest].
    + cbn -[Nat.eqb] in K, H. apply Nat.eqb_eq in K. injection H as Hm.
      subst n m. now apply Sb.
    + apply (f_equal (@length nat)) in H. simpl in H.
      rewrite ?length_app in H. simpl in H. lia.
Qed.

End OperandFacts.

Import OperandFacts.

(** X4: with an array as right operand, [dot] accepts a scalar and
    returns the receiver's matrix multiplied by it, where [@] raises
    ValueError; an array that is neither a scalar nor of shape (4, 4)
    makes both raise ValueError. A refused operand leaves the heap as it
    was. *)
Theorem X4_dot_and_matmul_on_arrays
    (h : heap Transform.instance) (self : loc) (A b : ndarray) :
  nth_error h self = Some {| Transform.matrix := A |} ->
  shape A = [4; 4] ->
  (shape b = [] ->
   Transform.dot self (Transform.an_array b) h
   = (h ++ [{| Transform.matrix :=
                 mk_array [4; 4]
                   (List.map (fun x => (x * item (data b) 0)%float)
                             (data A)) |}],
      Ok (length h))
   /\ Transform.matmul self (Transform.an_array b) h = (h, Raise ValueError))
  /\ (shape b <> [] -> shape b <> [4; 4] ->
      Transform.dot self (Transform.an_array b) h = (h, Raise ValueError)
      /\ Transform.matmul self (Transform.an_array b) h
         = (h, Raise ValueError)).
Proof.
  intros Es SA.
  assert (D : forall r, Np.dot A b = r ->
    Transform.dot self (Transform.an_array b) h
    = match r with
      | Ok p => Transform.init (Some p) h
      | Raise e => (h, Raise e)
      end).
  { intros r <-. unfold Transform.dot. erewrite bind_ok by reflexivity.
    erewrite bind_ok by (apply get_matrix_ok; exact Es).
    cbn [Transform.matrix]. unfold bind, lift.
    destruct (Np.dot A b); reflexivity. }
  assert (Mm : forall r, Np.matmul A b = r ->
    Transform.matmul self (Transform.an_array b) h
    = match r with
      | Ok p => Transform.init (Some p) h
      | Raise e => (h, Raise e)
      end).
  { intros r <-. unfold Transform.matmul. erewrite bind_ok by reflexivity.
    erewrite bind_ok by (apply get_matrix_ok; exact Es).
    cbn [Transform.matrix]. unfold bind, lift.
    destruct (Np.matmul A b); reflexivity. }
  split.
  - intros Sb. split.
    + erewrite D; [|unfold Np.dot; rewrite SA, Sb; reflexivity].
      cbn beta iota. now apply init_ok.
    + erewrite Mm; [|unfold Np.matmul; rewrite SA, Sb; reflexivity].
      reflexivity.
  - intros Sn Sb. split.
    + rewrite (D _ eq_refl). destruct (Np.dot A b) as [p|e] eqn:E.
      * apply init_refused. now apply (dot_4x4_other A b).
      * f_equal. f_equal. revert E. unfold Np.dot. rewrite SA.
        destruct (shape b) as [|n [|m rest]]; [contradiction| |].
        -- cbn -[Nat.eqb]. destruct (Nat.eqb 4 n); congruence.
        -- cbn -[removelast last Nat.eqb length].
           destruct (Nat.eqb _ _); congruence.
    + rewrite (Mm _ eq_refl). destruct (Np.matmul A b) as [p|e] eqn:E.
      * apply init_refused. now apply (matmul_4x4_other A b).
      * f_equal. f_equal. revert E. unfold Np.matmul. rewrite SA.
        destruct (shape b) as [|n [|m rest]]; [contradiction| |].
        -- cbn -[Nat.eqb]. destruct (Nat.eqb 4 n); congruence.
        -- cbn -[removelast last Nat.eqb broadcast pad_left Nat.max length].
           destruct (Nat.eqb _ _); [|congruence].
           destruct (broadcast _ _); congruence.
Qed.

(** [t.dot(2.0)] doubles the matrix; [t @ 2.0] and [t.dot(v)], [t @ v]
    for a 4-vector [v] raise. *)
Lemma X4_witness :
  (Transform.dot 0 (Transform.an_array (scalar 2))
     [{| Transform.matrix := translation 1 2 3 |}]
   = ([{| Transform.matrix := translation 1 2 3 |};
       {| Transform.matrix :=
            mk_array [4; 4]
              [2; 0; 0; 0; 0; 2; 0; 0; 0; 0; 2; 0; 2; 4; 6; 2]%float |}],
      Ok 1)
   /\ Transform.matmul 0 (Transform.an_array (scalar 2))
        [{| Transform.matrix := translation 1 2 3 |}]
      = ([{| Transform.matrix := translation 1 2 3 |}], Raise ValueError))
  /\ (Transform.dot 0 (Transform.an_array (vector [1; 2; 3; 4]%float))
        [{| Transform.matrix := translation 1 2 3 |}]
      = ([{| Transform.matrix := translation 1 2 3 |}], Raise ValueError)
      /\ Transform.matmul 0 (Transform.an_array (vector [1; 2; 3; 4]%float))
           [{| Transform.matrix := translation 1 2 3 |}]
         = ([{| Transform.matrix := translation 1 2 3 |}], Raise ValueError)).
Proof.
  split.
  - exact (proj1 (X4_dot_and_matmul_on_arrays
      [{| Transform.matrix := translation 1 2 3 |}] 0 (translation 1 2 3)
      (scalar 2) eq_refl eq_refl) eq_refl).
  - refine (proj2 (X4_dot_and_matmul_on_arrays
      [{| Transform.matrix := translation 1 2 3 |}] 0 (translation 1 2 3)
      (vector [1; 2; 3; 4]%float) eq_refl eq_refl) _ _);
      cbn; discriminate.
Defined.

(** ** [chain] on any number of transforms *)

Module ChainFacts.

Import Np Builders Heap HeapFacts TransformFacts TransformRuns.
Import Invariant MoreRuns.
Open Scope nat_scope.
Open Scope heap_scope.

Lemma init_none (h : heap Transform.instance) :
  Transform.init None h
  = (h ++ [{| Transform.matrix := eye 4 |}], Ok (length h)).
Proof. reflexivity. Qed.

Lemma matmul_valid (h : heap Transform.instance) (a b : loc) :
  Transform.all_4x4 h -> a < length h -> b < length h ->
  exists P,
    Transform.matmul a (Transform.a_transform b) h
    = (h ++ [{| Transform.matrix := P |}], Ok (length h))
    /\ shape P = [4; 4].
Proof.
  intros H La Lb.
  destruct (all_4x4_lookup h a H La) as [A [Ea SA]].
  destruct (all_4x4_lookup h b H Lb) as [B [Eb SB]].
  exists (product A B). split; [now apply matmul_step | reflexivity].
Qed.

Lemma reduce_valid (transforms : list loc) :
  forall (h : heap Transform.instance) (initial : loc),
    Transform.all_4x4 h -> initial < length h ->
    Forall (fun t => t < length h) transforms ->
    exists new,
      Transform.reduce
        (fun a b => Transform.matmul a (Transform.a_transform b))
        transforms initial h
      = (h ++ new,
         Ok (match transforms with
             | [] => initial
             | _ :: _ => length h + length transforms - 1
             end))
      /\ length new = length transforms.
Proof.
  induction transforms as [|b rest IH]; intros h initial H Li F.
  - exists []. cbn. now rewrite app_nil_r.
  - inversion F as [|? ? Lb F']; subst.
    destruct (matmul_valid h initial b H Li Lb) as [P [E SP]].
    cbn [Transform.reduce]. erewrite bind_ok by exact E.
    destruct (IH (h ++ [{| Transform.matrix := P |}]) (length h)) as [new [E' L']].
    + apply Forall_app. split; [exact H|].
      constructor; [exact SP | constructor].
    + rewrite length_app. cbn. lia.
    + eapply Forall_impl; [|exact F']. cbn. intros t Lt.
      rewrite length_app. cbn. lia.
    + exists ({| Transform.matrix := P |} :: new). split.
      * rewrite E', <- app_assoc. cbn [app]. f_equal. f_equal.
        rewrite length_app. cbn [length].
        destruct rest; cbn [length]; lia.
      * cbn. now rewrite L'.
Qed.

End ChainFacts.

Import ChainFacts.

(** X5: on a heap of 4x4 matrices, [chain] of any [n] of its Transforms,
    repeats allowed, never raises: it allocates [n + 1] new instances,
    the identity seed and one product per argument, and returns the
    last one. *)
Theorem X5_chain_allocates_one_per_argument
    (h : heap Transform.instance) (transforms : list loc) :
  Transform.all_4x4 h ->
  Forall (fun t => t < length h) transforms ->
  exists new,
    Transform.chain transforms h
    = (h ++ new, Ok (length h + length transforms))
    /\ length new = length transforms + 1
    /\ Transform.all_4x4 (h ++ new).
Proof.
  intros H F.
  destruct (reduce_valid transforms
              (h ++ [{| Transform.matrix := eye 4 |}]) (length h))
    as [new [E L]].
  - apply Forall_app. split; [exact H|].
    constructor; [reflexivity | constructor].
  - rewrite length_app. cbn. lia.
  - eapply Forall_impl; [|exact F]. cbn. intros t Lt.
    rewrite length_app. cbn. lia.
  - exists ({| Transform.matrix := eye 4 |} :: new).
    assert (R : Transform.chain transforms h
                = (h ++ {| Transform.matrix := eye 4 |} :: new,
                   Ok (length h + length transforms))).
    { unfold Transform.chain. erewrite bind_ok by exact (init_none h).
      rewrite E, <- app_assoc. cbn [app]. f_equal. f_equal.
      rewrite length_app. cbn [length].
      destruct transforms; cbn [length]; lia. }
    split; [|split].
    + exact R.
    + cbn. rewrite L. lia.
    + pose proof (keeps_chain transforms h H) as K.
      rewrite R in K. exact K.
Qed.

(** [chain(t, t, t)] on a heap holding [t] alone. *)
Lemma X5_witness :
  exists new,
    Transform.chain [0; 0; 0] [{| Transform.matrix := translation 1 2 3 |}]
    = ([{| Transform.matrix := translation 1 2 3 |}] ++ new, Ok 4)
    /\ length new = 4
    /\ Transform.all_4x4
         ([{| Transform.matrix := translation 1 2 3 |}] ++ new).
Proof.
  refine (X5_chain_allocates_one_per_argument
    [{| Transform.matrix := translation 1 2 3 |}] [0; 0; 0] _ _).
  - constructor; [reflexivity | constructor].
  - repeat constructor.
Defined.

(** ** [as_vec4] *)

Module Vec4Facts.

Import Np Builders.
Open Scope nat_scope.

Lemma size_of_app (s t : list nat) : size_of (s ++ t) = size_of s * size_of t.
Proof.
  induction s as [|x s IH]; [symmetry; apply Nat.mul_1_l|].
  change (size_of ((x :: s) ++ t)) with (x * size_of (s ++ t)).
  change (size_of (x :: s)) with (x * size_of s).
  rewrite IH. apply Nat.mul_assoc.
Qed.

Lemma size_of_split (s : list nat) :
  s <> [] -> size_of s = size_of (removelast s) * last s 0.
Proof.
  intros N. rewrite (app_removelast_last 0 N) at 1.
  rewrite size_of_app. cbn. lia.
Qed.

Lemma chunks_rows (n k : nat) (d : list float) :
  length d = n * k -> Forall (fun row => length row = k) (chunks n k d).
Proof.
  revert d. induction n as [|n IH]; intros d L; cbn; constructor.
  - rewrite length_firstn. lia.
  - apply IH. rewrite length_skipn. lia.
Qed.

Lemma length_completed (k : nat) (default : list float)
    (rows : list (list float)) :
  k <= 4 -> length default = 4 ->
  Forall (fun row => length row = k) rows ->
  length (flat_map (fun row => row ++ skipn k default) rows)
  = length rows * 4.
Proof.
  intros K D F. induction F as [|row rows Hr F IH]; cbn; [reflexivity|].
  rewrite !length_app, length_skipn, IH, Hr, D. lia.
Qed.

Lemma length_chunks (n k : nat) (d : list float) : length (chunks n k d) = n.
Proof. revert d. induction n; intros d; cbn; [|rewrite IHn]; reflexivity. Qed.

Lemma atleast_2d_ndim (a : ndarray) : 2 <= ndim (atleast_2d a).
Proof.
  unfold atleast_2d, ndim. destruct (shape a) as [|n [|m s]] eqn:E; cbn;
    try lia. rewrite E. cbn. lia.
Qed.

Lemma atleast_2d_wf (a : ndarray) : wf a -> wf (atleast_2d a).
Proof.
  unfold wf, atleast_2d. destruct (shape a) as [|n [|m s]] eqn:E; cbn;
    intros H; try lia. rewrite E. exact H.
Qed.

Lemma atleast_2d_fixed (a : ndarray) : 2 <= ndim a -> atleast_2d a = a.
Proof.
  unfold atleast_2d, ndim. destruct (shape a) as [|n [|m s]]; cbn;
    intros H; try lia. reflexivity.
Qed.

Lemma last_app_one (s : list nat) (x : nat) : last (s ++ [x]) 0 = x.
Proof. apply last_last. Qed.

(** [fill_rows] hands back a row of 4 entries, or refuses a default
    that has neither 4 entries nor 1. *)
Lemma fill_rows_cases (default : list float) :
  (exists filled, fill_rows default = Ok filled /\ length filled = 4
                  /\ (length default = 4 \/ length default = 1))
  \/ (fill_rows default = Raise ValueError
      /\ length default <> 4 /\ length default <> 1).
Proof.
  destruct default as [|a [|b [|c [|d [|e l]]]]]; cbn;
    try (right; repeat split; (reflexivity || lia));
    left; eexists; repeat split; auto.
Qed.

End Vec4Facts.

Import Vec4Facts.

(** X6: [as_vec4] raises a TypeError exactly when the last axis of the
    argument, taken with at least two dimensions, is longer than 4; a
    ValueError exactly when that axis is shorter than 4 and the default
    has neither 4 entries nor 1, so that it cannot be broadcast; and
    nothing else. What it returns has at least two dimensions and a last
    axis of 4, is left as it is by a second [as_vec4], and holds as many
    entries as its shape says when the argument does. *)
Theorem X6_as_vec4_shape (obj : ndarray) (default : list float) :
  (as_vec4 obj default = Raise TypeError
   <-> 4 < last (shape (atleast_2d obj)) 0)
  /\ (as_vec4 obj default = Raise ValueError
      <-> last (shape (atleast_2d obj)) 0 < 4
          /\ length default <> 4 /\ length default <> 1)
  /\ (forall e, as_vec4 obj default = Raise e ->
      e = TypeError \/ e = ValueError)
  /\ (forall r, as_vec4 obj default = Ok r ->
      2 <= ndim r
      /\ last (shape r) 0 = 4
      /\ as_vec4 r default = Ok r
      /\ (wf obj -> wf r)).
Proof.
  pose proof (atleast_2d_ndim obj) as N2.
  pose proof (atleast_2d_wf obj) as W2.
  unfold as_vec4. set (o := atleast_2d obj) in *. clearbody o.
  set (k := last (shape o) 0).
  assert (Ne : shape o <> []).
  { unfold ndim in N2. destruct (shape o); [cbn in N2; lia | discriminate]. }
  destruct (Nat.ltb k 4) eqn:K4; [|destruct (Nat.ltb 4 k) eqn:K5].
  - apply Nat.ltb_lt in K4.
    destruct (fill_rows_cases default) as [[filled [F [L4 L]]]|[F L]];
      rewrite F.
    + split; [|split; [|split]].
      * split; [discriminate | lia].
      * split; [discriminate | intros [_ [A B]]; lia].
      * discriminate.
      * intros r E. injection E as <-.
        assert (Nd : 2 <= ndim
                  (mk_array (removelast (shape o) ++ [4])
                     (flat_map (fun row => row ++ skipn k filled)
                        (chunks (size_of (removelast (shape o))) k
                           (data o))))).
        { unfold ndim in *. cbn [shape].
          rewrite length_app, removelast_firstn_len, length_firstn.
          cbn. lia. }
        split; [exact Nd|]. split; [cbn [shape]; apply last_app_one|].
        split.
        -- rewrite (atleast_2d_fixed _ Nd). cbn [shape].
           rewrite last_app_one. reflexivity.
        -- intros Wo. specialize (W2 Wo). unfold wf in *. cbn [shape data].
           rewrite length_completed; [|lia|exact L4|].
           ++ rewrite length_chunks, size_of_app. cbn. lia.
           ++ apply chunks_rows. rewrite W2. now apply size_of_split.
    + split; [|split; [|split]].
      * split; [discriminate | lia].
      * split; [intros _; split; [exact K4 | exact L] | reflexivity].
      * intros e E. injection E as <-. now right.
      * discriminate.
  - apply Nat.ltb_lt in K5. split; [|split; [|split]].
    + split; [intros _; exact K5 | reflexivity].
    + split; [discriminate | lia].
    + intros e E. injection E as <-. now left.
    + discriminate.
  - apply Nat.ltb_ge in K4, K5. assert (k = 4) by lia.
    split; [|split; [|split]].
    + split; [discriminate | lia].
    + split; [discriminate | lia].
    + discriminate.
    + intros r E. injection E as <-. split; [exact N2|].
      split; [assumption|]. split.
      * rewrite (atleast_2d_fixed _ N2). fold k.
        apply Nat.ltb_ge in K4, K5. now rewrite K4, K5.
      * intros Wo. now apply W2.
Qed.

(** (1, 2) becomes the row (1, 2, 0, 1). *)
Lemma X6_witness :
  2 <= ndim (mk_array [1; 4] [1; 2; 0; 1]%float)
  /\ last (shape (mk_array [1; 4] [1; 2; 0; 1]%float)) 0 = 4
  /\ as_vec4 (mk_array [1; 4] [1; 2; 0; 1]%float) position_default
     = Ok (mk_array [1; 4] [1; 2; 0; 1]%float)
  /\ (wf (vector [1; 2]%float) -> wf (mk_array [1; 4] [1; 2; 0; 1]%float)).
Proof.
  exact (proj2 (proj2 (proj2 (X6_as_vec4_shape (vector [1; 2]%float)
                                position_default)))
           (mk_array [1; 4] [1; 2; 0; 1]%float) eq_refl).
Defined.

Lemma as_vec4_too_long (v default : list float) :
  4 < length v -> as_vec4 (vector v) default = Raise TypeError.
Proof.
  intros L. unfold as_vec4. cbn [vector atleast_2d shape last].
  destruct (Nat.ltb (length v) 4) eqn:K; [apply Nat.ltb_lt in K; lia|].
  destruct (Nat.ltb 4 (length v)) eqn:K'; [reflexivity|].
  apply Nat.ltb_ge in K'. lia.
Qed.

(** X7: [translated] takes a position of up to four coordinates: missing
    ones count as 0, a fourth one is ignored, and a bare number is an x
    offset. A position of five coordinates or more raises TypeError and
    leaves the heap as it was. *)
Theorem X7_translated_completes_the_position
    (h : heap Transform.instance) (self : loc) (x y z w : float)
    (v : list float) :
  Transform.translated self (vector []) h
  = Transform.translated self (vector [0; 0; 0]%float) h
  /\ Transform.translated self (scalar x) h
     = Transform.translated self (vector [x; 0; 0]%float) h
  /\ Transform.translated self (vector [x]) h
     = Transform.translated self (vector [x; 0; 0]%float) h
  /\ Transform.translated self (vector [x; y]) h
     = Transform.translated self (vector [x; y; 0]%float) h
  /\ Transform.translated self (vector [x; y; z; w]) h
     = Transform.translated self (vector [x; y; z]) h
  /\ (4 < length v ->
      Transform.translated self (vector v) h = (h, Raise TypeError)).
Proof.
  repeat split; try reflexivity.
  intros L. unfold Transform.translated, bind, lift.
  now rewrite as_vec4_too_long.
Qed.

Lemma X7_witness :
  Transform.translated 0 (vector [1; 2; 3; 4; 5]%float)
    [{| Transform.matrix := eye 4 |}]
  = ([{| Transform.matrix := eye 4 |}], Raise TypeError).
Proof.
  refine (proj2 (proj2 (proj2 (proj2 (proj2
    (X7_translated_completes_the_position
       [{| Transform.matrix := eye 4 |}] 0 0%float 0%float 0%float 0%float
       [1; 2; 3; 4; 5]%float))))) _).
  cbn. lia.
Defined.

(** X8: [scaled] takes up to four scale factors: missing ones count as 1
    and a fourth one is ignored; the coordinates missing from [center]
    count as 0. Five factors or more raise TypeError and leave the heap
    as it was. *)
Theorem X8_scaled_completes_the_factors
    (h : heap Transform.instance) (self : loc) (a b c d : float)
    (center : option ndarray) (s : ndarray) (v : list float) :
  Transform.scaled self (vector []) center h
  = Transform.scaled self (vector [1; 1; 1]%float) center h
  /\ Transform.scaled self (scalar a) center h
     = Transform.scaled self (vector [a; 1; 1]%float) center h
  /\ Transform.scaled self (vector [a]) center h
     = Transform.scaled self (vector [a; 1; 1]%float) center h
  /\ Transform.scaled self (vector [a; b]) center h
     = Transform.scaled self (vector [a; b; 1]%float) center h
  /\ Transform.scaled self (vector [a; b; c; d]) center h
     = Transform.scaled self (vector [a; b; c]) center h
  /\ Transform.scaled self s (Some (vector [a; b])) h
     = Transform.scaled self s (Some (vector [a; b; 0]%float)) h
  /\ (4 < length v ->
      Transform.scaled self (vector v) center h = (h, Raise TypeError)).
Proof.
  repeat split; try reflexivity.
  intros L. unfold Transform.scaled, bind, lift.
  now rewrite as_vec4_too_long.
Qed.

Lemma X8_witness :
  Transform.scaled 0 (vector [1; 2; 3; 4; 5]%float) None
    [{| Transform.matrix := eye 4 |}]
  = ([{| Transform.matrix := eye 4 |}], Raise TypeError).
Proof.
  refine (proj2 (proj2 (proj2 (proj2 (proj2 (proj2
    (X8_scaled_completes_the_factors
       [{| Transform.matrix := eye 4 |}] 0 0%float 0%float 0%float 0%float
       None (eye 4) [1; 2; 3; 4; 5]%float)))))) _).
  cbn. lia.
Defined.

(** ** [map], [imap] and [is_null] *)

Module MapFacts.

Import Np Builders Heap HeapFacts TransformFacts TransformRuns.
Open Scope nat_scope.
Open Scope heap_scope.

Lemma bind_raise {obj A B} (m : M obj A) (k : A -> M obj B) h h' e :
  m h = (h', Raise e) -> bind m k h = (h', Raise e).
Proof. intros E. unfold bind. now rewrite E. Qed.

Lemma length_flat_map_const {A B} (f : A -> list B) (l : list A) (c : nat) :
  (forall x, length (f x) = c) -> length (flat_map f l) = length l * c.
Proof.
  intros H. induction l as [|x l IH]; cbn; [reflexivity|].
  now rewrite length_app, H, IH.
Qed.

Lemma length_dot_data (I J K L : nat) (a b : list float) :
  length (dot_data I J K L a b) = I * (K * L).
Proof.
  unfold dot_data.
  rewrite (length_flat_map_const _ _ (K * L)), length_seq; [reflexivity|].
  intros i. rewrite (length_flat_map_const _ _ L), length_seq; [reflexivity|].
  intros k. now rewrite length_map, length_seq.
Qed.

Lemma fst_get_matrix (self : loc) (h : heap Transform.instance) :
  fst (Transform.get_matrix self h) = h.
Proof.
  unfold Transform.get_matrix, bind, read.
  destruct (nth_error h self); reflexivity.
Qed.

Lemma fst_arg_to_vec4 func self_ arg (h : heap Transform.instance) :
  (forall s a h', fst (func s a h') = h') ->
  fst (Transform._arg_to_vec4 func self_ arg h) = h.
Proof.
  intros F. unfold Transform._arg_to_vec4. destruct arg as [a|]; [|reflexivity].
  unfold bind, lift. destruct (as_vec4 a position_default) as [v|e];
    [|reflexivity].
  specialize (F self_ v h). destruct (func self_ v h) as [h' [r|e]];
    cbn in F; subst h'; reflexivity.
Qed.

(** [as_vec4] of a flat sequence of at most four coordinates. *)
Lemma as_vec4_short (v : list float) :
  length v <= 4 ->
  exists v4, as_vec4 (vector v) position_default = Ok (mk_array [1; 4] v4).
Proof.
  intros L.
  destruct v as [|a [|b [|c [|d [|e v]]]]]; try (cbn in L; lia);
    eexists; reflexivity.
Qed.

Lemma as_vec4_rows (n k : nat) (d : list float) :
  k <= 4 ->
  exists d4, as_vec4 (mk_array [n; k] d) position_default
             = Ok (mk_array [n; 4] d4).
Proof.
  intros L. unfold as_vec4. cbn [atleast_2d shape last removelast app data].
  destruct (Nat.ltb k 4) eqn:K; [eexists; reflexivity|].
  apply Nat.ltb_ge in K. assert (k = 4) by lia. subst k.
  cbn. eexists. reflexivity.
Qed.

End MapFacts.

Import MapFacts.

(** X9: [map], [imap] and [is_null] leave the heap exactly as it was,
    whatever they return or raise: they build no Transform. *)
Theorem X9_map_imap_is_null_allocate_nothing
    (linalg_inv : ndarray -> result ndarray)
    (h : heap Transform.instance) (self : loc) (arg : Transform.pyobject) :
  fst (Transform.map self arg h) = h
  /\ fst (Transform.imap linalg_inv self arg h) = h
  /\ fst (Transform.is_null self h) = h.
Proof.
  split; [|split].
  - apply fst_arg_to_vec4. intros s a h'. unfold bind.
    pose proof (fst_get_matrix s h') as G.
    destruct (Transform.get_matrix s h') as [h2 [m|e]]; cbn in G; subst h2;
      reflexivity.
  - apply fst_arg_to_vec4. intros s a h'. unfold bind.
    pose proof (fst_get_matrix s h') as G.
    destruct (Transform.get_matrix s h') as [h2 [m|e]]; cbn in G; subst h2;
      [|reflexivity].
    unfold lift. destruct (linalg_inv m); reflexivity.
  - unfold Transform.is_null, bind.
    pose proof (fst_get_matrix self h) as G.
    destruct (Transform.get_matrix self h) as [h2 [m|e]]; cbn in G; subst h2;
      reflexivity.
Qed.

(** X10: [map] raises TypeError on an argument that is not a tuple, a list
    or an ndarray, and on a sequence of five coordinates or more. On a
    Transform and a flat sequence of up to four coordinates it returns a
    flat array of 4 entries; on [n] rows of up to four coordinates, an
    array of shape (n, 4). *)
Theorem X10_map_argument_and_result
    (h : heap Transform.instance) (self : loc) (M : ndarray) :
  nth_error h self = Some {| Transform.matrix := M |} ->
  shape M = [4; 4] ->
  Transform.map self Transform.another_object h = (h, Raise TypeError)
  /\ (forall v, 4 < length v ->
        Transform.map self (Transform.a_sequence (vector v)) h
        = (h, Raise TypeError))
  /\ (forall v, length v <= 4 ->
        exists r,
          Transform.map self (Transform.a_sequence (vector v)) h = (h, Ok r)
          /\ shape r = [4] /\ wf r)
  /\ (forall n k d, k <= 4 ->
        exists r,
          Transform.map self (Transform.a_sequence (mk_array [n; k] d)) h
          = (h, Ok r)
          /\ shape r = [n; 4] /\ wf r).
Proof.
  intros Es SM. split; [reflexivity|]. split; [|split].
  - intros v L. unfold Transform.map, Transform._arg_to_vec4, bind, lift.
    now rewrite as_vec4_too_long.
  - intros v L. destruct (as_vec4_short v L) as [v4 E].
    exists (vector (dot_data 1 4 1 4 v4 (data M))). split; [|split].
    + unfold Transform.map, Transform._arg_to_vec4.
      rewrite (bind_lift_ok _ _ _ _ E).
      erewrite bind_ok.
      2:{ erewrite bind_ok by (apply get_matrix_ok; exact Es).
          cbn [Transform.matrix]. unfold lift, Np.dot. rewrite SM.
          reflexivity. }
      reflexivity.
    + cbn [vector shape]. now rewrite length_dot_data.
    + reflexivity.
  - intros n k d L. destruct (as_vec4_rows n k d L) as [d4 E].
    exists (mk_array [n; 4] (dot_data n 4 1 4 d4 (data M))). split; [|split].
    + unfold Transform.map, Transform._arg_to_vec4.
      rewrite (bind_lift_ok _ _ _ _ E).
      erewrite bind_ok.
      2:{ erewrite bind_ok by (apply get_matrix_ok; exact Es).
          cbn [Transform.matrix]. unfold lift, Np.dot. rewrite SM.
          cbn -[dot_data]. rewrite Nat.mul_1_r. reflexivity. }
      reflexivity.
    + reflexivity.
    + unfold wf. cbn [shape data]. rewrite length_dot_data. cbn. lia.
Qed.

Lemma X10_witness :
  exists r,
    Transform.map 0 (Transform.a_sequence (vector [1; 2]%float))
      [{| Transform.matrix := translation 1 2 3 |}]
    = ([{| Transform.matrix := translation 1 2 3 |}], Ok r)
    /\ shape r = [4] /\ wf r.
Proof.
  refine (proj1 (proj2 (proj2 (X10_map_argument_and_result
    [{| Transform.matrix := translation 1 2 3 |}] 0 (translation 1 2 3)
    eq_refl eq_refl))) [1; 2]%float _).
  cbn. lia.
Defined.

(** ** Points through translations and scalings *)

Module PointFacts.

Import Binary64 Binary64Facts Binary64Mul Np Builders MatrixFacts.
Open Scope nat_scope.

Ltac is_a_zero' :=
  lazymatch goal with
  | |- is_zero (_ + _)%float = true => apply add_zero_zero; is_a_zero'
  | |- is_zero (0 * _)%float = true =>
      apply mul_zero_finite; [reflexivity | first [assumption | reflexivity]]
  | |- is_zero (_ * 0)%float = true =>
      apply mul_finite_zero; [first [assumption | reflexivity] | reflexivity]
  | |- _ => reflexivity
  end.

Ltac drop_zeros' :=
  lazymatch goal with
  | |- same_number ?x ?x => apply same_number_refl
  | |- same_number (?a + ?b)%float ?x =>
      first
        [ apply same_number_trans with (y := a);
          [apply add_zero_r; is_a_zero' | drop_zeros']
        | apply same_number_trans with (y := b);
          [apply add_zero_l; is_a_zero' | drop_zeros'] ]
  end.

(** The identity is neutral on the right, for finite entries. *)
Lemma matmul_eye_data (d : list float) :
  length d = 16 -> Forall (fun x => is_finite x = true) d ->
  Forall2 same_number (dot_data 4 4 1 4 d (data (eye 4))) d.
Proof.
  intros L F. sixteen d.
  repeat match goal with
         | H : Forall _ (_ :: _) |- _ => inversion H; clear H; subst
         end.
  cbv [dot_data sum_prod flat_map List.map seq fold_left item nth app
       Nat.mul Nat.add data eye Nat.eqb].
  rewrite !mul_1_r.
  repeat (apply Forall2_cons); try apply Forall2_nil; drop_zeros'.
Qed.

(** A point, as the row (x, y, z, 1), times a translation matrix. *)
Lemma point_dot_translation (x y z a b c : float) :
  is_finite x = true -> is_finite y = true -> is_finite z = true ->
  Forall2 same_number
    (dot_data 1 4 1 4 [x; y; z; 1]%float (data (translation a b c)))
    [x + a; y + b; z + c; 1]%float.
Proof.
  intros Fx Fy Fz.
  cbv [dot_data sum_prod flat_map List.map seq fold_left item nth app
       Nat.mul Nat.add data translation].
  rewrite !mul_1_r, !mul_1_l.
  repeat (apply Forall2_cons); try apply Forall2_nil;
    try (apply add_same_number; [|apply same_number_refl]);
    drop_zeros'.
Qed.

(** A point, as the row (x, y, z, 1), times a scaling matrix. *)
Lemma point_dot_scale (x y z a b c : float) :
  is_finite x = true -> is_finite y = true -> is_finite z = true ->
  Forall2 same_number
    (dot_data 1 4 1 4 [x; y; z; 1]%float
       [a; 0; 0; 0; 0; b; 0; 0; 0; 0; c; 0; 0; 0; 0; 1]%float)
    [x * a; y * b; z * c; 1]%float.
Proof.
  intros Fx Fy Fz.
  cbv [dot_data sum_prod flat_map List.map seq fold_left item nth app
       Nat.mul Nat.add].
  rewrite !mul_1_l.
  repeat (apply Forall2_cons); try apply Forall2_nil; drop_zeros'.
Qed.

Lemma Forall2_same_trans (a b c : list float) :
  Forall2 same_number a b -> Forall2 same_number b c ->
  Forall2 same_number a c.
Proof.
  intros H. revert c. induction H as [|x y a b Hxy H IH]; intros c Hc;
    inversion Hc; subst; constructor.
  - eapply same_number_trans; eassumption.
  - now apply IH.
Qed.

End PointFacts.

Module PointRuns.

Import Binary64 Binary64Facts Binary64Mul Np Builders Heap HeapFacts.
Import MatrixFacts TransformFacts TransformRuns PointFacts.
Open Scope nat_scope.
Open Scope heap_scope.

Lemma scaled_run (h : heap Transform.instance) (self : loc)
    (M P : ndarray) (a b c : float) :
  nth_error h self = Some {| Transform.matrix := M |} ->
  Np.dot M (scaling a b c) = Ok P ->
  shape P = [4; 4] ->
  Transform.scaled self (vector [a; b; c]) None h
  = (h ++ [{| Transform.matrix := P |}], Ok (length h)).
Proof.
  intros Es Ep Sp. unfold Transform.scaled.
  rewrite (bind_lift_ok _ _ _ (mk_array [1; 4] [a; b; c; 1%float]) eq_refl).
  rewrite (bind_lift_ok _ _ _ (mk_array [3] [a; b; c]) eq_refl).
  rewrite (bind_lift_ok _ _ _ [a; b; c] eq_refl).
  rewrite (bind_lift_ok _ _ _ (scaling a b c) eq_refl).
  now apply dot_run with (t := {| Transform.matrix := M |})
                         (b := scaling a b c).
Qed.

End PointRuns.

Import PointFacts PointRuns.

(** X11: the translation by a finite (a, b, c) moves every finite point:
    [Transform().translated((a, b, c)).map((x, y, z))] returns the flat
    array (x + a, y + b, z + c, 1), each entry up to the sign of a
    zero. *)
Theorem X11_translated_moves_points
    (h : heap Transform.instance) (a b c x y z : float) :
  is_finite a = true -> is_finite b = true -> is_finite c = true ->
  is_finite x = true -> is_finite y = true -> is_finite z = true ->
  exists (T r : ndarray),
    (t <- Transform.init None ;;
     t' <- Transform.translated t (vector [a; b; c]) ;;
     Transform.map t' (Transform.a_sequence (vector [x; y; z]))) h
    = (h ++ [{| Transform.matrix := eye 4 |}; {| Transform.matrix := T |}],
       Ok r)
    /\ same_entries r (vector [x + a; y + b; z + c; 1]%float).
Proof.
  intros Fa Fb Fc Fx Fy Fz.
  exists (translation (0 + a) (0 + b) (0 + c)).
  exists (vector (dot_data 1 4 1 4 [x; y; z; 1]%float
                    (data (translation (0 + a) (0 + b) (0 + c))))).
  split.
  - erewrite bind_ok by reflexivity.
    erewrite bind_ok.
    2:{ apply translated_run with (M := eye 4)
          (P := translation (0 + a) (0 + b) (0 + c)).
        - apply nth_error_last.
        - rewrite dot_4x4 by reflexivity.
          now rewrite eye_dot_translation.
        - reflexivity. }
    erewrite map_run with (M := translation (0 + a) (0 + b) (0 + c)).
    + rewrite <- app_assoc. reflexivity.
    + rewrite length_app, <- app_assoc. apply nth_error_last_1.
    + reflexivity.
  - split; [reflexivity|]. cbn [data vector].
    eapply Forall2_same_trans; [now apply point_dot_translation|].
    repeat (apply Forall2_cons); try apply Forall2_nil;
      try apply same_number_refl;
      (apply add_same_number; [apply same_number_refl|]);
      now apply add_zero_l.
Qed.

Lemma X11_witness :
  exists (T r : ndarray),
    (t <- Transform.init None ;;
     t' <- Transform.translated t (vector [1; 2; 3]%float) ;;
     Transform.map t' (Transform.a_sequence (vector [10; 20; 30]%float))) []
    = ([{| Transform.matrix := eye 4 |}; {| Transform.matrix := T |}], Ok r)
    /\ same_entries r (vector [10 + 1; 20 + 2; 30 + 3; 1]%float).
Proof.
  exact (X11_translated_moves_points [] 1 2 3 10 20 30
           eq_refl eq_refl eq_refl eq_refl eq_refl eq_refl).
Defined.

(** X12: the scaling by finite factors (a, b, c) scales every finite
    point: [Transform().scaled((a, b, c)).map((x, y, z))] returns the flat
    array (x * a, y * b, z * c, 1), each entry up to the sign of a
    zero. *)
Theorem X12_scaled_scales_points
    (h : heap Transform.instance) (a b c x y z : float) :
  is_finite a = true -> is_finite b = true -> is_finite c = true ->
  is_finite x = true -> is_finite y = true -> is_finite z = true ->
  exists (S r : ndarray),
    (t <- Transform.init None ;;
     t' <- Transform.scaled t (vector [a; b; c]) None ;;
     Transform.map t' (Transform.a_sequence (vector [x; y; z]))) h
    = (h ++ [{| Transform.matrix := eye 4 |}; {| Transform.matrix := S |}],
       Ok r)
    /\ same_entries S (scaling a b c)
    /\ same_entries r (vector [x * a; y * b; z * c; 1]%float).
Proof.
  intros Fa Fb Fc Fx Fy Fz.
  assert (HS : Forall2 same_number
                 (data (product (eye 4) (scaling a b c)))
                 (data (scaling a b c))).
  { apply eye_matmul_data; [reflexivity|]. cbn [data scaling].
    repeat (apply Forall_cons; [assumption || reflexivity|]).
    apply Forall_nil. }
  exists (product (eye 4) (scaling a b c)).
  exists (vector (dot_data 1 4 1 4 [x; y; z; 1]%float
                    (data (product (eye 4) (scaling a b c))))).
  split; [|split].
  - erewrite bind_ok by reflexivity.
    erewrite bind_ok.
    2:{ apply scaled_run with (M := eye 4)
          (P := product (eye 4) (scaling a b c)).
        - apply nth_error_last.
        - now rewrite dot_4x4 by reflexivity.
        - reflexivity. }
    erewrite map_run with (M := product (eye 4) (scaling a b c)).
    + rewrite <- app_assoc. reflexivity.
    + rewrite length_app, <- app_assoc. apply nth_error_last_1.
    + reflexivity.
  - split; [reflexivity | exact HS].
  - split; [reflexivity|]. cbn [data vector].
    eapply Forall2_same_trans.
    + apply dot_data_same; [apply Forall2_same_refl | exact HS].
    + now apply point_dot_scale.
Qed.

Lemma X12_witness :
  exists (S r : ndarray),
    (t <- Transform.init None ;;
     t' <- Transform.scaled t (vector [2; 3; 4]%float) None ;;
     Transform.map t' (Transform.a_sequence (vector [10; 20; 30]%float))) []
    = ([{| Transform.matrix := eye 4 |}; {| Transform.matrix := S |}], Ok r)
    /\ same_entries S (scaling 2 3 4)
    /\ same_entries r (vector [10 * 2; 20 * 3; 30 * 4; 1]%float).
Proof.
  exact (X12_scaled_scales_points [] 2 3 4 10 20 30
           eq_refl eq_refl eq_refl eq_refl eq_refl eq_refl).
Defined.

(** X13: the identity transform is neutral on both sides: for a Transform
    [t] whose sixteen entries are finite, [t @ Transform()] and
    [Transform() @ t] return new Transforms whose matrices have the
    entries of the matrix of [t], up to the sign of zeros, so that
    [np.array_equal] holds. *)
Theorem X13_identity_is_neutral
    (h : heap Transform.instance) (self : loc) (M : ndarray) :
  nth_error h self = Some {| Transform.matrix := M |} ->
  shape M = [4; 4] -> wf M -> all_finite M ->
  (i <- Transform.init None ;;
   Transform.matmul self (Transform.a_transform i)) h
  = (h ++ [{| Transform.matrix := eye 4 |};
           {| Transform.matrix := product M (eye 4) |}],
     Ok (length h + 1))
  /\ (i <- Transform.init None ;;
      Transform.matmul i (Transform.a_transform self)) h
     = (h ++ [{| Transform.matrix := eye 4 |};
              {| Transform.matrix := product (eye 4) M |}],
        Ok (length h + 1))
  /\ same_entries (product M (eye 4)) M
  /\ same_entries (product (eye 4) M) M
  /\ array_equal (product M (eye 4)) M = true
  /\ array_equal (product (eye 4) M) M = true.
Proof.
  intros Es SM WM FM.
  assert (L : length (data M) = 16) by (unfold wf in WM; now rewrite WM, SM).
  assert (R1 : same_entries (product M (eye 4)) M).
  { split; [now rewrite SM | now apply matmul_eye_data]. }
  assert (R2 : same_entries (product (eye 4) M) M).
  { split; [now rewrite SM | now apply eye_matmul_data]. }
  repeat split; try apply R1; try apply R2;
    try (now apply same_entries_array_equal).
  - erewrite bind_ok by reflexivity.
    erewrite matmul_step with (A := M) (B := eye 4);
      [ | now apply nth_error_weaken | apply nth_error_last | exact SM
        | reflexivity ].
    rewrite <- app_assoc, length_app. reflexivity.
  - erewrite bind_ok by reflexivity.
    erewrite matmul_step with (A := eye 4) (B := M);
      [ | apply nth_error_last | now apply nth_error_weaken | reflexivity
        | exact SM ].
    rewrite <- app_assoc, length_app. reflexivity.
Qed.

Lemma X13_witness :
  same_entries (product (translation 1 2 3) (eye 4)) (translation 1 2 3)
  /\ array_equal (product (translation 1 2 3) (eye 4)) (translation 1 2 3)
     = true.
Proof.
  assert (F : all_finite (translation 1 2 3)).
  { unfold all_finite. cbn [data translation].
    repeat (apply Forall_cons; [reflexivity|]). apply Forall_nil. }
  pose proof (X13_identity_is_neutral
    [{| Transform.matrix := translation 1 2 3 |}] 0 (translation 1 2 3)
    eq_refl eq_refl eq_refl F) as H.
  split.
  - exact (proj1 (proj2 (proj2 H))).
  - exact (proj1 (proj2 (proj2 (proj2 (proj2 H))))).
Defined.

(** X14: [inv] and [imap] hand on what [np.linalg.inv] does: its error
    reaches the caller as it is and nothing is allocated; an inverse of
    shape (4, 4) becomes the matrix of a new Transform; an array of
    another shape is refused by the constructor with ValueError. *)
Theorem X14_inv_hands_on_the_inverse
    (linalg_inv : ndarray -> result ndarray)
    (h : heap Transform.instance) (self : loc) (M : ndarray) :
  nth_error h self = Some {| Transform.matrix := M |} ->
  (forall e, linalg_inv M = Raise e ->
     Transform.inv linalg_inv self h = (h, Raise e)
     /\ forall v, length v <= 4 ->
          Transform.imap linalg_inv self (Transform.a_sequence (vector v)) h
          = (h, Raise e))
  /\ (forall R, linalg_inv M = Ok R -> shape R = [4; 4] ->
        Transform.inv linalg_inv self h
        = (h ++ [{| Transform.matrix := R |}], Ok (length h)))
  /\ (forall R, linalg_inv M = Ok R -> shape R <> [4; 4] ->
        Transform.inv linalg_inv self h = (h, Raise ValueError)).
Proof.
  intros Es. split; [|split].
  - intros e E. split.
    + unfold Transform.inv.
      erewrite bind_ok by (apply get_matrix_ok; exact Es).
      cbn [Transform.matrix]. unfold bind, lift. now rewrite E.
    + intros v L. destruct (as_vec4_short v L) as [v4 E4].
      unfold Transform.imap, Transform._arg_to_vec4.
      rewrite (bind_lift_ok _ _ _ _ E4).
      erewrite bind_raise; [reflexivity|].
      erewrite bind_ok by (apply get_matrix_ok; exact Es).
      cbn [Transform.matrix]. unfold bind, lift. now rewrite E.
  - intros R E SR. unfold Transform.inv.
    erewrite bind_ok by (apply get_matrix_ok; exact Es).
    cbn [Transform.matrix]. rewrite (bind_lift_ok _ _ _ _ E).
    now apply init_ok.
  - intros R E SR. unfold Transform.inv.
    erewrite bind_ok by (apply get_matrix_ok; exact Es).
    cbn [Transform.matrix]. rewrite (bind_lift_ok _ _ _ _ E).
    now apply init_refused.
Qed.

(** A routine that finds every matrix singular. *)
Lemma X14_witness :
  Transform.inv (fun _ => Raise LinAlgError) 0
    [{| Transform.matrix := eye 4 |}]
  = ([{| Transform.matrix := eye 4 |}], Raise LinAlgError).
Proof.
  exact (proj1 (proj1 (X14_inv_hands_on_the_inverse
    (fun _ => Raise LinAlgError) [{| Transform.matrix := eye 4 |}] 0 (eye 4)
    eq_refl) LinAlgError eq_refl)).
Defined.

(** X15: the protocol of [NodeBackend] mirrors the fields of [Node] one
    for one: two fields never share a setter, every operation of the
    protocol is the setter of a field, and every declared default is a
    value its own field accepts. *)
Theorem X15_one_setter_per_field :
  (forall f g, Node.setter_of f = Node.setter_of g -> f = g)
  /\ (forall m, exists f, Node.setter_of f = m)
  /\ (forall f, Node.validate f (Node.get f Node.default)
                = Ok (Node.get f Node.default)).
Proof.
  split; [|split].
  - intros f g. destruct f, g; cbn; intros H; try reflexivity; discriminate.
  - intros m. destruct m;
      [ exists Node.f_name | exists Node.f_parent | exists Node.f_children
      | exists Node.f_visible | exists Node.f_opacity | exists Node.f_order
      | exists Node.f_interactive | exists Node.f_transform ]; reflexivity.
  - intros f. destruct f; reflexivity.
Qed.

(** ** Translations and scalings composed *)

Module ComposeFacts.

Import Binary64 Binary64Facts Binary64Mul Np Builders MatrixFacts PointFacts.
Open Scope nat_scope.

Lemma translation_dot_translation (a b c x y z : float) :
  is_finite a = true -> is_finite b = true -> is_finite c = true ->
  is_finite x = true -> is_finite y = true -> is_finite z = true ->
  Forall2 same_number
    (dot_data 4 4 1 4 (data (translation a b c)) (data (translation x y z)))
    (data (translation (a + x) (b + y) (c + z))).
Proof.
  intros Fa Fb Fc Fx Fy Fz.
  cbv [dot_data sum_prod flat_map List.map seq fold_left item nth app
       Nat.mul Nat.add data translation].
  rewrite !mul_1_r, !mul_1_l.
  repeat (apply Forall2_cons); try apply Forall2_nil;
    try (apply add_same_number; [|apply same_number_refl]);
    drop_zeros'.
Qed.

Lemma translation_dot_scaling (a b c x y z : float) :
  is_finite a = true -> is_finite b = true -> is_finite c = true ->
  is_finite x = true -> is_finite y = true -> is_finite z = true ->
  Forall2 same_number
    (dot_data 4 4 1 4 (data (translation a b c)) (data (scaling x y z)))
    [x; 0; 0; 0;
     0; y; 0; 0;
     0; 0; z; 0;
     a * x; b * y; c * z; 1]%float.
Proof.
  intros Fa Fb Fc Fx Fy Fz.
  cbv [dot_data sum_prod flat_map List.map seq fold_left item nth app
       Nat.mul Nat.add data translation scaling].
  rewrite !mul_1_l.
  repeat (apply Forall2_cons); try apply Forall2_nil; drop_zeros'.
Qed.

Lemma scaling_dot_translation (a b c x y z : float) :
  is_finite a = true -> is_finite b = true -> is_finite c = true ->
  is_finite x = true -> is_finite y = true -> is_finite z = true ->
  Forall2 same_number
    (dot_data 4 4 1 4 (data (scaling a b c)) (data (translation x y z)))
    [a; 0; 0; 0;
     0; b; 0; 0;
     0; 0; c; 0;
     x; y; z; 1]%float.
Proof.
  intros Fa Fb Fc Fx Fy Fz.
  cbv [dot_data sum_prod flat_map List.map seq fold_left item nth app
       Nat.mul Nat.add data translation scaling].
  rewrite !mul_1_r, !mul_1_l.
  repeat (apply Forall2_cons); try apply Forall2_nil; drop_zeros'.
Qed.

(** The origin, as the row (0, 0, 0, 1), times a matrix whose first three
    rows are finite: its last row. *)
Lemma origin_dot_rows
    (m00 m01 m02 m03 m10 m11 m12 m13 m20 m21 m22 m23 m30 m31 m32 m33 : float) :
  Forall (fun x => is_finite x = true)
    [m00; m01; m02; m03; m10; m11; m12; m13; m20; m21; m22; m23] ->
  Forall2 same_number
    (dot_data 1 4 1 4 [0; 0; 0; 1]%float
       [m00; m01; m02; m03; m10; m11; m12; m13;
        m20; m21; m22; m23; m30; m31; m32; m33])
    [m30; m31; m32; m33].
Proof.
  intros F.
  repeat match goal with
         | H : Forall _ (_ :: _) |- _ => inversion H; clear H; subst
         end.
  cbv [dot_data sum_prod flat_map List.map seq fold_left item nth app
       Nat.mul Nat.add].
  rewrite !mul_1_l.
  repeat (apply Forall2_cons); try apply Forall2_nil; drop_zeros'.
Qed.

End ComposeFacts.

Import ComposeFacts.

(** X16: translations add up: for finite offsets,
    [Transform().translated((a, b, c)).translated((x, y, z))] is a new
    Transform whose matrix has the entries of the translation by
    (a + x, b + y, c + z), up to the sign of zeros. *)
Theorem X16_translations_add_up
    (h : heap Transform.instance) (a b c x y z : float) :
  is_finite a = true -> is_finite b = true -> is_finite c = true ->
  is_finite x = true -> is_finite y = true -> is_finite z = true ->
  exists (T1 T2 : ndarray),
    (t <- Transform.init None ;;
     t1 <- Transform.translated t (vector [a; b; c]) ;;
     Transform.translated t1 (vector [x; y; z])) h
    = (h ++ [{| Transform.matrix := eye 4 |};
             {| Transform.matrix := T1 |};
             {| Transform.matrix := T2 |}],
       Ok (length h + 2))
    /\ same_entries T2 (translation (a + x) (b + y) (c + z)).
Proof.
  intros Fa Fb Fc Fx Fy Fz.
  set (T1 := translation (0 + a) (0 + b) (0 + c)).
  exists T1, (product T1 (translation x y z)). split.
  - erewrite bind_ok by reflexivity.
    erewrite bind_ok.
    2:{ apply translated_run with (M := eye 4) (P := T1).
        - apply nth_error_last.
        - rewrite dot_4x4 by reflexivity.
          now rewrite eye_dot_translation.
        - reflexivity. }
    erewrite translated_run with (M := T1) (P := product T1 (translation x y z));
      [ | apply nth_error_last | now rewrite dot_4x4 by reflexivity
        | reflexivity ].
    rewrite <- !app_assoc, !length_app. reflexivity.
  - split; [reflexivity|]. cbn [product data].
    eapply Forall2_same_trans;
      [|now apply (translation_dot_translation a b c x y z)].
    apply dot_data_same; [|apply Forall2_same_refl].
    subst T1. cbn [data translation].
    repeat (apply Forall2_cons); try apply Forall2_nil;
      try apply same_number_refl; now apply add_zero_l.
Qed.

Lemma X16_witness :
  exists (T1 T2 : ndarray),
    (t <- Transform.init None ;;
     t1 <- Transform.translated t (vector [1; 2; 3]%float) ;;
     Transform.translated t1 (vector [10; 20; 30]%float)) []
    = ([{| Transform.matrix := eye 4 |};
        {| Transform.matrix := T1 |};
        {| Transform.matrix := T2 |}],
       Ok 2)
    /\ same_entries T2 (translation (1 + 10) (2 + 20) (3 + 30)).
Proof.
  exact (X16_translations_add_up [] 1 2 3 10 20 30
           eq_refl eq_refl eq_refl eq_refl eq_refl eq_refl).
Defined.

(** X17: each operation is applied after those already in the transform.
    For finite (a, b, c) and (x, y, z), translating by (a, b, c) and then
    scaling by (x, y, z) sends the origin to (a * x, b * y, c * z, 1),
    while scaling first and translating then sends it to (a, b, c, 1);
    each coordinate up to the sign of a zero. *)
Theorem X17_operations_apply_in_order
    (h : heap Transform.instance) (a b c x y z : float) :
  is_finite a = true -> is_finite b = true -> is_finite c = true ->
  is_finite x = true -> is_finite y = true -> is_finite z = true ->
  (exists h' r,
     (t <- Transform.init None ;;
      t1 <- Transform.translated t (vector [a; b; c]) ;;
      t2 <- Transform.scaled t1 (vector [x; y; z]) None ;;
      Transform.map t2 (Transform.a_sequence (vector [0; 0; 0]%float))) h
     = (h', Ok r)
     /\ same_entries r (vector [a * x; b * y; c * z; 1]%float))
  /\ (exists h' r,
        (t <- Transform.init None ;;
         t1 <- Transform.scaled t (vector [x; y; z]) None ;;
         t2 <- Transform.translated t1 (vector [a; b; c]) ;;
         Transform.map t2 (Transform.a_sequence (vector [0; 0; 0]%float))) h
        = (h', Ok r)
        /\ same_entries r (vector [a; b; c; 1]%float)).
Proof.
  intros Fa Fb Fc Fx Fy Fz.
  assert (F0 : is_finite 0 = true) by reflexivity.
  split.
  - set (T1 := translation (0 + a) (0 + b) (0 + c)).
    set (T2 := product T1 (scaling x y z)).
    assert (H2 : Forall2 same_number (data T2)
                   [x; 0; 0; 0; 0; y; 0; 0; 0; 0; z; 0;
                    a * x; b * y; c * z; 1]%float).
    { eapply Forall2_same_trans;
        [|now apply (translation_dot_scaling a b c x y z)].
      apply dot_data_same; [|apply Forall2_same_refl].
      subst T1. cbn [data translation].
      repeat (apply Forall2_cons); try apply Forall2_nil;
        try apply same_number_refl; now apply add_zero_l. }
    eexists. exists (vector (dot_data 1 4 1 4 [0; 0; 0; 1]%float (data T2))).
    split.
    + erewrite bind_ok by reflexivity.
      erewrite bind_ok.
      2:{ apply translated_run with (M := eye 4) (P := T1).
          - apply nth_error_last.
          - rewrite dot_4x4 by reflexivity.
            now rewrite eye_dot_translation.
          - reflexivity. }
      erewrite bind_ok.
      2:{ apply scaled_run with (M := T1) (P := T2);
            [ apply nth_error_last | now rewrite dot_4x4 by reflexivity
            | reflexivity ]. }
      erewrite map_run with (M := T2);
        [ reflexivity | apply nth_error_last | reflexivity ].
    + split; [reflexivity|]. cbn [data vector].
      eapply Forall2_same_trans.
      * apply dot_data_same; [apply Forall2_same_refl | exact H2].
      * apply origin_dot_rows.
        repeat (apply Forall_cons; [assumption|]). apply Forall_nil.
  - set (S1 := product (eye 4) (scaling x y z)).
    set (T2 := product S1 (translation a b c)).
    assert (H1 : Forall2 same_number (data S1) (data (scaling x y z))).
    { apply eye_matmul_data; [reflexivity|]. cbn [data scaling].
      repeat (apply Forall_cons; [assumption|]). apply Forall_nil. }
    assert (H2 : Forall2 same_number (data T2)
                   [x; 0; 0; 0; 0; y; 0; 0; 0; 0; z; 0; a; b; c; 1]%float).
    { eapply Forall2_same_trans;
        [|now apply (scaling_dot_translation x y z a b c)].
      apply dot_data_same; [exact H1 | apply Forall2_same_refl]. }
    eexists. exists (vector (dot_data 1 4 1 4 [0; 0; 0; 1]%float (data T2))).
    split.
    + erewrite bind_ok by reflexivity.
      erewrite bind_ok.
      2:{ apply scaled_run with (M := eye 4) (P := S1);
            [ apply nth_error_last | now rewrite dot_4x4 by reflexivity
            | reflexivity ]. }
      erewrite bind_ok.
      2:{ apply translated_run with (M := S1) (P := T2);
            [ apply nth_error_last | now rewrite dot_4x4 by reflexivity
            | reflexivity ]. }
      erewrite map_run with (M := T2);
        [ reflexivity | apply nth_error_last | reflexivity ].
    + split; [reflexivity|]. cbn [data vector].
      eapply Forall2_same_trans.
      * apply dot_data_same; [apply Forall2_same_refl | exact H2].
      * apply origin_dot_rows.
        repeat (apply Forall_cons; [assumption|]). apply Forall_nil.
Qed.

Lemma X17_witness :
  exists h' r,
    (t <- Transform.init None ;;
     t1 <- Transform.translated t (vector [1; 2; 3]%float) ;;
     t2 <- Transform.scaled t1 (vector [10; 20; 30]%float) None ;;
     Transform.map t2 (Transform.a_sequence (vector [0; 0; 0]%float))) []
    = (h', Ok r)
    /\ same_entries r (vector [1 * 10; 2 * 20; 3 * 30; 1]%float).
Proof.
  exact (proj1 (X17_operations_apply_in_order [] 1 2 3 10 20 30
           eq_refl eq_refl eq_refl eq_refl eq_refl eq_refl)).
Defined.

(** X18: [translate] and [scale] raise ValueError exactly when their
    argument does not have three elements; on (x, y, z) they return the
    4x4 matrices with the offsets in the last row and the factors on the
    diagonal. *)
Theorem X18_translate_and_scale (v : list float) (x y z : float) :
  (translate v = Raise ValueError <-> length v <> 3)
  /\ (scale v = Raise ValueError <-> length v <> 3)
  /\ translate [x; y; z] = Ok (translation x y z)
  /\ scale [x; y; z] = Ok (scaling x y z)
  /\ wf (translation x y z) /\ wf (scaling x y z).
Proof.
  split; [|split].
  - destruct v as [|v0 [|v1 [|v2 [|v3 v]]]]; cbn; split; intros H;
      try reflexivity; try discriminate; try lia.
  - unfold scale. destruct (Nat.eqb (length v) 3) eqn:E; cbn [negb].
    + apply Nat.eqb_eq in E. split; [discriminate | lia].
    + apply Nat.eqb_neq in E. split; [intros _; exact E | reflexivity].
  - repeat split.
Qed.
